(** * blok-mcp: the transport bridge

    A shallow embedding of the two entry points of blok-mcp,
    [blok_mcp/__main__.py] (stdio mode) and [blok_mcp/http_server.py]
    (HTTP/SSE mode), and the properties of the bridge: how the startup
    credentials become constructor arguments, the lazily built singletons,
    the ASGI middleware that routes SSE traffic, the session-token
    injection on the SSE handshake, the static OAuth stubs and the exit
    status of the stdio process.

    Python values are modelled as follows.  A [str] is a [string] (the
    UTF-8 bytes of its text), [bytes] is a [list byte], [None]-or-[str] is
    an [option string], a [dict] is a [gmap], an object reference is a
    number and the objects live in a heap indexed by references, an
    exception is a value of [exn] carried by [Raise]. *)

From stdpp Require Import gmap strings list fin_maps.
From Stdlib.Strings Require Import Ascii Byte.
From Stdlib Require Import ZArith.

Open Scope string_scope.
Set Default Proof Using "Type*".

(** ** Python values *)

Module Py.

(** [bool(x)]: the truth value Python's [if x] and [x and y] test. *)
Class Truthy (A : Type) := truthy : A → bool.
#[global] Hint Mode Truthy ! : typeclass_instances.

(** A [str] is true when it is not empty. *)
#[global] Instance str_truthy : Truthy string :=
  λ s, match s with EmptyString => false | String _ _ => true end.

(** [None] is false, any other value has its own truth value. *)
#[global] Instance option_truthy {A} `{Truthy A} : Truthy (option A) :=
  λ o, match o with Some a => truthy a | None => false end.

(** [a and b]: [a] when [a] is false, [b] otherwise. *)
Definition py_and {A} `{Truthy A} (a b : A) : A :=
  if truthy a then b else a.

(** The exception classes the entry points tell apart.  [Exception] stands
    for the class of that name and all its subclasses, with the class name
    and [str(e)]; [BaseOnly] for the remaining direct descendants of
    [BaseException] ([GeneratorExit], [asyncio.CancelledError]). *)
Inductive exn :=
| KeyboardInterrupt
| SystemExit (status : Z)
| BaseOnly (cls : string)
| Exception (cls msg : string).

(** The outcome of a call: a value or a raised exception. *)
Inductive result (A : Type) :=
| Ok (a : A)
| Raise (e : exn).
Arguments Ok {A} a.
Arguments Raise {A} e.

Definition bytes := list byte.

(** [b"..."] literals. *)
Definition b (s : string) : bytes := String.list_byte_of_string s.

Definition is_cont (c : byte) : bool :=
  (128 <=? Byte.to_N c)%N && (Byte.to_N c <=? 191)%N.

Definition between (lo hi : N) (c : byte) : bool :=
  (lo <=? Byte.to_N c)%N && (Byte.to_N c <=? hi)%N.

(** Well-formed UTF-8 as the strict codec accepts it: shortest forms only,
    no surrogates, nothing above U+10FFFF. *)
Fixpoint utf8_valid (bs : bytes) : bool :=
  match bs with
  | [] => true
  | b0 :: rest =>
      let n := Byte.to_N b0 in
      if (n <? 128)%N then utf8_valid rest
      else if between 194 223 b0 then
        match rest with
        | c1 :: rest1 => is_cont c1 && utf8_valid rest1
        | _ => false
        end
      else if between 224 239 b0 then
        match rest with
        | c1 :: c2 :: rest2 =>
            between (if (n =? 224)%N then 160 else 128)
                    (if (n =? 237)%N then 159 else 191) c1
            && is_cont c2 && utf8_valid rest2
        | _ => false
        end
      else if between 240 244 b0 then
        match rest with
        | c1 :: c2 :: c3 :: rest3 =>
            between (if (n =? 240)%N then 144 else 128)
                    (if (n =? 244)%N then 143 else 191) c1
            && is_cont c2 && is_cont c3 && utf8_valid rest3
        | _ => false
        end
      else false
  end.

(** [bs.decode()]: the text of well-formed UTF-8, [UnicodeDecodeError]
    otherwise. *)
Definition decode (bs : bytes) : result string :=
  if utf8_valid bs then Ok (String.string_of_list_byte bs)
  else Raise (Exception "UnicodeDecodeError" "invalid utf-8").

(** [dict(pairs)]: the pairs are inserted from left to right, so the last
    value given for a key is the one kept. *)
Definition dict `{Countable K} {V} (pairs : list (K * V)) : gmap K V :=
  foldl (λ m p, <[p.1 := p.2]> m) ∅ pairs.

(** [d.get(k, default)]. *)
Definition get `{Countable K} {V} (d : gmap K V) (k : K) (dflt : V) : V :=
  default dflt (d !! k).

(** The status the interpreter exits with when the call of [main()] at the
    bottom of the module ends with [r]: 0 after a normal return, the
    requested status after [SystemExit], 130 after an interrupt nobody
    caught, 1 after any other exception (a traceback is printed). *)
Definition exit_status (r : result unit) : Z :=
  match r with
  | Ok _ => 0
  | Raise (SystemExit n) => n
  | Raise KeyboardInterrupt => 130
  | Raise _ => 1
  end.

End Py.
Import Py.

#[global] Instance byte_eq_dec : EqDecision byte := Byte.byte_eq_dec.
#[global] Instance byte_countable : Countable byte :=
  inj_countable Byte.to_N Byte.of_N Byte.of_to_N.

(** ** Collaborators outside the bridge *)

(** Modelled from the spec: [blok_mcp.config.config] is not part of the
    bridge; the entry points read three optional strings from it (the
    pre-fetched token, the email and the password, section 4.1) and the
    [debug] flag. *)
Record Config := {
  access_token : option string;
  email : option string;
  password : option string;
  debug : bool;
}.

(** The keyword arguments of [BlokMCPServer(...)]. *)
Record CtorArgs := {
  pre_auth_token : option string;
  auto_auth_email : option string;
  auto_auth_password : option string;
}.

(** Modelled from the spec: the AuthenticationPosture of section 3. *)
Inductive AuthenticationPosture :=
| PreAuthToken (token : string)
| AutoLogin (email password : string)
| Unauthenticated.

(** Modelled from the spec: [BlokMCPServer.__init__]
    ([blok_mcp/mcp_server.py]) is not part of the bridge; section 4.1 says
    how the three arguments are read: a token first, the credential pair
    next, unauthenticated otherwise. *)
Definition posture_of_args (a : CtorArgs) : AuthenticationPosture :=
  match pre_auth_token a, auto_auth_email a, auto_auth_password a with
  | Some t, _, _ => PreAuthToken t
  | None, Some e, Some p => AutoLogin e p
  | None, _, _ => Unauthenticated
  end.

(** The priority table of section 4.1 read over optional inputs, where a
    present input is one that is given at all. *)
Definition priority_table (token email password : option string)
  : AuthenticationPosture :=
  match token, email, password with
  | Some t, _, _ => PreAuthToken t
  | None, Some e, Some p => AutoLogin e p
  | None, _, _ => Unauthenticated
  end.

(** An input that is given and not empty. *)
Definition nonempty (o : option string) : option string :=
  match o with
  | Some (String c s) => Some (String c s)
  | _ => None
  end.

(** Modelled from the spec: the SessionManager of section 3, owned by the
    protocol server. *)
Record SessionManager := {
  credential : option string;
  is_authenticated : bool;
}.

(** What the bridge uses of [blok_mcp.mcp_server]: the constructor, whose
    outcome may differ from one attempt to the next (an auto-login is a
    network exchange), and [SessionManager.set_token]. *)
Class McpServerLib := {
  BlokMCPServer_init : nat → CtorArgs → result SessionManager;
  set_token : string → SessionManager → SessionManager;
}.

(** Modelled from the spec: [set_token] of section 4.3 stores the credential
    and flips [is_authenticated] to true, and does nothing on a session that
    is authenticated already. *)
Definition spec_set_token (v : string) (s : SessionManager) : SessionManager :=
  if is_authenticated s then s
  else {| credential := Some v; is_authenticated := true |}.

(** Modelled from the spec: the posture applied to a new SessionManager at
    construction (section 4.2).  [login] is the credential exchange of an
    auto-login, which answers with a session credential or refuses; a
    refused exchange makes the construction raise (section 7). *)
Definition spec_init (login : nat → string → string → option string)
    (attempt : nat) (a : CtorArgs) : result SessionManager :=
  match posture_of_args a with
  | PreAuthToken t => Ok {| credential := Some t; is_authenticated := true |}
  | AutoLogin e p =>
      match login attempt e p with
      | Some tok => Ok {| credential := Some tok; is_authenticated := true |}
      | None => Raise (Exception "AuthenticationError" "login failed")
      end
  | Unauthenticated => Ok {| credential := None; is_authenticated := false |}
  end.

(** A protocol server object: the arguments it was built with and the
    session manager it owns. *)
Record BlokMCPServer := {
  init_args : CtorArgs;
  session_manager : SessionManager;
}.

(** ** [blok_mcp/__main__.py] *)

Module Main.

Inductive level := INFO | ERROR.

(** The three assignments at the top of [main]'s [try] block. *)
Definition ctor_args (config : Config) : CtorArgs :=
  {| pre_auth_token :=
       if truthy (access_token config) then access_token config else None;
     auto_auth_email :=
       if truthy (py_and (email config) (password config))
       then email config else None;
     auto_auth_password :=
       if truthy (py_and (email config) (password config))
       then password config else None |}.

Section main.
Context {mcp_lib : McpServerLib}.
(** [asyncio.run(server.run())]: how serving over stdin/stdout ends. *)
Variable serve : BlokMCPServer → result unit.

(** The body of the [try] block. *)
Definition startup (config : Config) : result unit :=
  match BlokMCPServer_init 0 (ctor_args config) with
  | Raise e => Raise e
  | Ok sm =>
      serve {| init_args := ctor_args config; session_manager := sm |}
  end.

(** [main()]: the calls made to [logger] and how the call ends;
    [sys.exit(n)] raises [SystemExit(n)]. *)
Definition main (config : Config) : list (level * string) * result unit :=
  match startup config with
  | Raise KeyboardInterrupt =>
      ([(INFO, "Shutting down Blok MCP server...")], Raise (SystemExit 0))
  | Raise (Exception cls msg) =>
      ([(ERROR, "Error starting server: " ++ msg)], Raise (SystemExit 1))
  | r => ([], r)
  end.
End main.

End Main.

(** ** ASGI connections and the downstream Starlette application *)

(** The keys of an ASGI connection scope the bridge looks at.  Every scope
    has a ["type"]; the other keys may be missing. *)
Record Scope := {
  type : string;
  path : option string;
  method : option string;
  headers : option (list (bytes * bytes));
}.

(** The JSON documents the static endpoints answer with: an object whose
    values are strings or arrays of strings, keys in insertion order. *)
Inductive jvalue :=
| JStr (s : string)
| JArr (items : list string).

Definition json := list (string * jvalue).

(** What a connection is answered with. *)
Inductive Response :=
| JSONResponse (content : json) (status_code : Z)
| PlainTextResponse (content : string) (status_code : Z)
| RedirectResponse (url : string) (status_code : Z)
| NotHttp.

Module Starlette.

(** A request as an endpoint sees it: the scope, the body that [receive]
    delivers and [request.base_url]. *)
Record Request := {
  scope : Scope;
  body : bytes;
  base_url : string;
}.

Record Route := {
  route_path : string;
  endpoint : Request → Response;
  methods : list string;
}.

(** [Route(path, endpoint, methods=...)]: a route that allows GET allows
    HEAD too. *)
Definition Route_init (path : string) (endpoint : Request → Response)
    (methods : list string) : Route :=
  {| route_path := path;
     endpoint := endpoint;
     methods := if bool_decide ("GET" ∈ methods)
                then methods ++ ["HEAD"] else methods |}.

Inductive Match := NONE | PARTIAL | FULL.

#[global] Instance Match_eq_dec : EqDecision Match.
Proof. solve_decision. Defined.

(** [Route.matches]: a path without parameters matches itself only. *)
Definition matches (r : Route) (s : Scope) : Match :=
  if bool_decide (type s = "http") then
    if bool_decide (default "" (path s) = route_path r) then
      if bool_decide (default "" (method s) ∈ methods r)
      then FULL else PARTIAL
    else NONE
  else NONE.

(** [Route.handle]: the endpoint, or 405 when the method is not allowed. *)
Definition handle (r : Route) (req : Request) : Response :=
  if bool_decide (default "" (method (scope req)) ∈ methods r)
  then endpoint r req
  else PlainTextResponse "Method Not Allowed" 405.

Definition first_full (routes : list Route) (s : Scope) : option Route :=
  head (filter (λ r, matches r s = FULL) routes).

Definition first_partial (routes : list Route) (s : Scope) : option Route :=
  head (filter (λ r, matches r s = PARTIAL) routes).

(** The path with its trailing slash removed or added. *)
Definition toggle_slash (p : string) : string :=
  match String.rev p with
  | String "/"%char rest => String.rev rest
  | _ => p ++ "/"
  end.

(** [Router.app] on an HTTP scope: the first full match, else the first
    partial match, else a redirect when toggling the trailing slash gives
    a path some route knows, else 404. *)
Definition router (routes : list Route) (req : Request) : Response :=
  let s := scope req in
  match first_full routes s with
  | Some r => handle r req
  | None =>
      match first_partial routes s with
      | Some r => handle r req
      | None =>
          let p := default "" (path s) in
          let s' := {| type := type s; path := Some (toggle_slash p);
                       method := method s; headers := headers s |} in
          if bool_decide (p ≠ "/")
             && bool_decide (Exists (λ r, matches r s' ≠ NONE) routes)
          then RedirectResponse (base_url req ++ toggle_slash p) 307
          else PlainTextResponse "Not Found" 404
      end
  end.

(** [Starlette(routes=routes)] called on a connection. *)
Definition app (routes : list Route) (req : Request) : Response :=
  if bool_decide (type (scope req) = "http") then router routes req
  else NotHttp.

End Starlette.

(** What the bridge uses of [mcp.server.sse.SseServerTransport]: the
    constructor, [connect_sse], which registers a new SSE session, and
    [handle_post_message], which answers a POSTed message.  The transport
    object holds no reference to the protocol server. *)
Class SseLib := {
  transport_state : Type;
  SseServerTransport_init : string → transport_state;
  connect_sse : Scope → transport_state → transport_state;
  handle_post_message :
    Scope → bytes → transport_state → transport_state * Response;
}.

(** ** [blok_mcp/http_server.py] *)

Module HttpServer.

(** An object reference ([id(obj)]). *)
Definition ref := nat.

(** The three assignments of [get_mcp_server]. *)
Definition ctor_args (config : Config) : CtorArgs :=
  {| pre_auth_token :=
       if truthy (access_token config) then access_token config else None;
     auto_auth_email :=
       if truthy (py_and (email config) (password config))
       then email config else None;
     auto_auth_password :=
       if truthy (py_and (email config) (password config))
       then password config else None |}.

(** *** The static endpoints *)

Definition health_check (request : Starlette.Request) : Response :=
  JSONResponse [("status", JStr "ok"); ("service", JStr "blok-mcp")] 200.

Fixpoint lstrip_slash (s : string) : string :=
  match s with
  | String "/"%char rest => lstrip_slash rest
  | _ => s
  end.

(** [s.rstrip("/")] *)
Definition rstrip_slash (s : string) : string :=
  String.rev (lstrip_slash (String.rev s)).

Definition oauth_metadata (request : Starlette.Request) : Response :=
  let base_url := rstrip_slash (Starlette.base_url request) in
  JSONResponse
    [("issuer", JStr base_url);
     ("authorization_endpoint", JStr (base_url ++ "/oauth/authorize"));
     ("token_endpoint", JStr (base_url ++ "/oauth/token"));
     ("response_types_supported", JArr ["code"]);
     ("grant_types_supported", JArr ["authorization_code"]);
     ("code_challenge_methods_supported", JArr ["S256"])]
    200.

Definition oauth_authorize (request : Starlette.Request) : Response :=
  JSONResponse
    [("error", JStr "unsupported_grant_type");
     ("error_description", JStr "Use X-Session-Token header")]
    400.

Definition oauth_token (request : Starlette.Request) : Response :=
  JSONResponse
    [("error", JStr "unsupported_grant_type");
     ("error_description", JStr "Use X-Session-Token header")]
    400.

(** The route table of [create_app]. *)
Definition routes : list Starlette.Route :=
  [ Starlette.Route_init "/health" health_check ["GET"];
    Starlette.Route_init "/.well-known/oauth-authorization-server"
      oauth_metadata ["GET"];
    Starlette.Route_init "/oauth/authorize" oauth_authorize ["GET"; "POST"];
    Starlette.Route_init "/oauth/token" oauth_token ["POST"] ].

(** How a connection handled by the middleware ends: an SSE session opened
    on a server and a transport (with the token injected, if one was), a
    message handed to the transport, or the answer of the downstream
    application to the scope it was given. *)
Inductive Served :=
| SseSession (mcp_server sse : ref) (injected : option string)
| MessagePosted (sse : ref) (response : Response)
| PassedThrough (scope : Scope) (response : Response).

Section bridge.
Context {mcp_lib : McpServerLib} {sse_lib : SseLib}.
Variable config : Config.

(** The state of the process: the two module globals, the heap of the
    objects built so far, the next free reference and the number of
    times [BlokMCPServer(...)] has been called. *)
Record World := {
  _mcp_server : option ref;
  _sse_transport : option ref;
  servers : gmap ref BlokMCPServer;
  transports : gmap ref transport_state;
  next_ref : ref;
  init_calls : nat;
}.

(** The process right after the module is imported. *)
Definition start : World :=
  {| _mcp_server := None; _sse_transport := None;
     servers := ∅; transports := ∅; next_ref := 0; init_calls := 0 |}.

(** Calls that read and change the process state and may raise. *)
Definition M (A : Type) : Type := World → World * result A.

Definition ret {A} (a : A) : M A := λ w, (w, Ok a).

Definition bind {A B} (m : M A) (k : A → M B) : M B :=
  λ w, match m w with
       | (w', Ok a) => k a w'
       | (w', Raise e) => (w', Raise e)
       end.

Definition lift {A} (r : result A) : M A := λ w, (w, r).

Notation "'let*' x := m 'in' k" := (bind m (λ x, k))
  (at level 10, x name, m at level 200, k at level 200, only parsing).

Definition get_mcp_server : M ref := λ w,
  match _mcp_server w with
  | Some r => (w, Ok r)
  | None =>
      match BlokMCPServer_init (init_calls w) (ctor_args config) with
      | Raise e =>
          ({| _mcp_server := None;
              _sse_transport := _sse_transport w;
              servers := servers w;
              transports := transports w;
              next_ref := next_ref w;
              init_calls := S (init_calls w) |}, Raise e)
      | Ok sm =>
          let r := next_ref w in
          ({| _mcp_server := Some r;
              _sse_transport := _sse_transport w;
              servers :=
                <[r := {| init_args := ctor_args config;
                          session_manager := sm |}]> (servers w);
              transports := transports w;
              next_ref := S r;
              init_calls := S (init_calls w) |}, Ok r)
      end
  end.

Definition get_sse_transport : M ref := λ w,
  match _sse_transport w with
  | Some t => (w, Ok t)
  | None =>
      let t := next_ref w in
      ({| _mcp_server := _mcp_server w;
          _sse_transport := Some t;
          servers := servers w;
          transports :=
            <[t := SseServerTransport_init "/messages/"]> (transports w);
          next_ref := S t;
          init_calls := init_calls w |}, Ok t)
  end.

(** [mcp_server.session_manager] read through the reference. *)
Definition session_of (r : ref) : M SessionManager := λ w,
  match servers w !! r with
  | Some srv => (w, Ok (session_manager srv))
  | None => (w, Raise (Exception "ReferenceError" "no such server"))
  end.

(** [mcp_server.session_manager.set_token(token)]: the object behind the
    reference is changed in place. *)
Definition call_set_token (r : ref) (token : string) : M unit := λ w,
  ({| _mcp_server := _mcp_server w;
      _sse_transport := _sse_transport w;
      servers :=
        alter (λ srv, {| init_args := init_args srv;
                         session_manager :=
                           set_token token (session_manager srv) |})
              r (servers w);
      transports := transports w;
      next_ref := next_ref w;
      init_calls := init_calls w |}, Ok tt).

(** [sse.connect_sse(scope, receive, send)] *)
Definition call_connect_sse (t : ref) (scope : Scope) : M unit := λ w,
  ({| _mcp_server := _mcp_server w;
      _sse_transport := _sse_transport w;
      servers := servers w;
      transports := alter (connect_sse scope) t (transports w);
      next_ref := next_ref w;
      init_calls := init_calls w |}, Ok tt).

(** [sse.handle_post_message(scope, receive, send)] *)
Definition call_handle_post_message (t : ref) (scope : Scope)
    (body : bytes) : M Response := λ w,
  match transports w !! t with
  | Some ts =>
      let '(ts', response) := handle_post_message scope body ts in
      ({| _mcp_server := _mcp_server w;
          _sse_transport := _sse_transport w;
          servers := servers w;
          transports := <[t := ts']> (transports w);
          next_ref := next_ref w;
          init_calls := init_calls w |}, Ok response)
  | None => (w, Raise (Exception "ReferenceError" "no such transport"))
  end.

(** [SSEMiddleware.handle_sse], up to the point where the connection is
    handed to the run loop of the protocol server. *)
Definition handle_sse (scope : Scope) : M Served :=
  let* mcp_server := get_mcp_server in
  let* sse := get_sse_transport in
  let headers := dict (default [] (headers scope)) in
  let* session_token :=
    lift (decode (get headers (b "x-session-token") (b ""))) in
  let* injected :=
    (if truthy session_token then
       let* sm := session_of mcp_server in
       (if negb (is_authenticated sm) then
          (let* _ := call_set_token mcp_server session_token in
           ret (Some session_token))
        else ret None)
     else ret None) in
  let* _ := call_connect_sse sse scope in
  ret (SseSession mcp_server sse injected).

(** [SSEMiddleware.handle_messages] *)
Definition handle_messages (scope : Scope) (body : bytes) : M Served :=
  let* sse := get_sse_transport in
  let* response := call_handle_post_message sse scope body in
  ret (MessagePosted sse response).

(** [scope["method"]] *)
Definition scope_method (scope : Scope) : M string :=
  match method scope with
  | Some m => ret m
  | None => lift (Raise (Exception "KeyError" "'method'"))
  end.

(** [SSEMiddleware.__call__], with [app] the wrapped application. *)
Definition SSEMiddleware_call (app : Scope → bytes → Response)
    (scope : Scope) (body : bytes) : M Served :=
  if bool_decide (type scope ≠ "http") then
    ret (PassedThrough scope (app scope body))
  else
    let path := default "" (path scope) in
    let* is_sse :=
      (if bool_decide (path ∈ ["/sse"; "/sse/"]) then
         (let* m := scope_method scope in ret (bool_decide (m = "GET")))
       else ret false) in
    if is_sse then handle_sse scope
    else
      let* is_messages :=
        (if bool_decide (path = "/messages/") then
           (let* m := scope_method scope in ret (bool_decide (m = "POST")))
         else ret false) in
      if is_messages then handle_messages scope body
      else ret (PassedThrough scope (app scope body)).

(** [request.base_url], which Starlette computes from the scope. *)
Variable base_url_of : Scope → string.

(** [create_app()]: the Starlette application of the static routes
    wrapped in the middleware. *)
Definition create_app : Scope → bytes → M Served :=
  SSEMiddleware_call
    (λ scope body,
       Starlette.app routes
         {| Starlette.scope := scope; Starlette.body := body;
            Starlette.base_url := base_url_of scope |}).

(** *** Sequences of calls within one process *)

Inductive call :=
| GetMcpServer
| GetSseTransport
| Connection (scope : Scope) (body : bytes).

Inductive returned :=
| Server (r : result ref)
| Transport (r : result ref)
| Handled (r : result Served).

Definition step (c : call) (w : World) : World * returned :=
  match c with
  | GetMcpServer => let '(w', r) := get_mcp_server w in (w', Server r)
  | GetSseTransport => let '(w', r) := get_sse_transport w in (w', Transport r)
  | Connection scope body =>
      let '(w', r) := create_app scope body w in (w', Handled r)
  end.

Fixpoint run (cs : list call) (w : World) : World * list returned :=
  match cs with
  | [] => (w, [])
  | c :: cs' =>
      let '(w1, x) := step c w in
      let '(w2, xs) := run cs' w1 in
      (w2, x :: xs)
  end.

(** *** Notions used to state the properties *)

(** The heap holds the objects the two globals refer to and no other:
    nothing while a global is [None], one object once it is set. *)
Definition wf (w : World) : Prop :=
  match _mcp_server w with
  | None => servers w = ∅
  | Some r => ∃ srv, servers w = {[r := srv]}
  end
  ∧ match _sse_transport w with
    | None => transports w = ∅
    | Some t => ∃ ts, transports w = {[t := ts]}
    end.

(** The session manager of the shared server, once there is one. *)
Definition shared_session (w : World) : option SessionManager :=
  match _mcp_server w with
  | Some r => session_manager <$> servers w !! r
  | None => None
  end.

(** The value of the session header as [handle_sse] reads it. *)
Definition session_header_value (scope : Scope) : bytes :=
  get (dict (default [] (headers scope))) (b "x-session-token") (b "").

(** A connection that ended with a token injected. *)
Definition injected (x : returned) : bool :=
  match x with
  | Handled (Ok (SseSession _ _ (Some _))) => true
  | _ => false
  end.

(** The number of connections that ended with a token injected. *)
Definition injections (xs : list returned) : nat :=
  length (filter (λ x, injected x = true) xs).

(** The ways an SSE handshake can go, with the state it leaves: the
    server cannot be built; the header is not UTF-8; the header is
    absent or empty; the server is authenticated already; the token is
    injected.  ([hs_lost_server] is there for references to nothing,
    which the bridge never makes.) *)
Inductive handshake (scope : Scope) (w : World)
  : World * result Served → Prop :=
| hs_no_server w1 e :
    get_mcp_server w = (w1, Raise e) →
    handshake scope w (w1, Raise e)
| hs_bad_header w1 r w2 t e :
    get_mcp_server w = (w1, Ok r) →
    get_sse_transport w1 = (w2, Ok t) →
    decode (session_header_value scope) = Raise e →
    handshake scope w (w2, Raise e)
| hs_no_token w1 r w2 t token :
    get_mcp_server w = (w1, Ok r) →
    get_sse_transport w1 = (w2, Ok t) →
    decode (session_header_value scope) = Ok token →
    truthy token = false →
    handshake scope w
      ((call_connect_sse t scope w2).1, Ok (SseSession r t None))
| hs_lost_server w1 r w2 t token :
    get_mcp_server w = (w1, Ok r) →
    get_sse_transport w1 = (w2, Ok t) →
    decode (session_header_value scope) = Ok token →
    truthy token = true →
    servers w2 !! r = None →
    handshake scope w
      (w2, Raise (Exception "ReferenceError" "no such server"))
| hs_authenticated w1 r w2 t token srv :
    get_mcp_server w = (w1, Ok r) →
    get_sse_transport w1 = (w2, Ok t) →
    decode (session_header_value scope) = Ok token →
    truthy token = true →
    servers w2 !! r = Some srv →
    is_authenticated (session_manager srv) = true →
    handshake scope w
      ((call_connect_sse t scope w2).1, Ok (SseSession r t None))
| hs_inject w1 r w2 t token srv :
    get_mcp_server w = (w1, Ok r) →
    get_sse_transport w1 = (w2, Ok t) →
    decode (session_header_value scope) = Ok token →
    truthy token = true →
    servers w2 !! r = Some srv →
    is_authenticated (session_manager srv) = false →
    handshake scope w
      ((call_connect_sse t scope (call_set_token r token w2).1).1,
       Ok (SseSession r t (Some token))).

(** Two processes that agree on everything the SSE transport side is
    made of. *)
Definition same_transport_side (w1 w2 : World) : Prop :=
  _sse_transport w1 = _sse_transport w2
  ∧ transports w1 = transports w2
  ∧ next_ref w1 = next_ref w2.

End bridge.

(** The three ways a connection can go, and the rule of section 4.4 that
    picks one from the scope type, the path and the method. *)
Inductive Handler := SseHandshake | MessageIntake | Downstream.

Definition classify (type path method : string) : Handler :=
  if bool_decide (type = "http") then
    if bool_decide (method = "GET")
       && (bool_decide (path = "/sse") || bool_decide (path = "/sse/"))
    then SseHandshake
    else if bool_decide (method = "POST")
            && bool_decide (path = "/messages/")
    then MessageIntake
    else Downstream
  else Downstream.

(** The payload of the two OAuth stubs. *)
Definition unsupported_grant_type : Response :=
  JSONResponse
    [("error", JStr "unsupported_grant_type");
     ("error_description", JStr "Use X-Session-Token header")]
    400.

End HttpServer.

(** ** Collaborators and inputs used in the examples *)

Module Sample.

(** A credential exchange that always succeeds. *)
Definition login_ok (attempt : nat) (email password : string)
  : option string := Some ("session of " ++ email).

(** A credential exchange that is refused once and succeeds afterwards. *)
Definition login_flaky (attempt : nat) (email password : string)
  : option string :=
  match attempt with
  | 0 => None
  | S _ => Some ("session of " ++ email)
  end.

(** The protocol server of sections 4.2 and 4.3. *)
Definition mcp (login : nat → string → string → option string)
  : McpServerLib :=
  {| BlokMCPServer_init := spec_init login; set_token := spec_set_token |}.

(** A session manager whose [set_token] has no guard of its own: it stores
    whatever it is given. *)
Definition overwriting_set_token (v : string) (s : SessionManager)
  : SessionManager :=
  {| credential := Some v; is_authenticated := true |}.

Definition mcp_unguarded : McpServerLib :=
  {| BlokMCPServer_init := spec_init login_ok;
     set_token := overwriting_set_token |}.

(** A protocol server whose construction is interrupted from the
    keyboard, and one whose construction fails. *)
Definition mcp_interrupted : McpServerLib :=
  {| BlokMCPServer_init := λ _ _, Raise KeyboardInterrupt;
     set_token := spec_set_token |}.

Definition mcp_broken : McpServerLib :=
  {| BlokMCPServer_init :=
       λ _ _, Raise (Exception "ConnectionError" "api unreachable");
     set_token := spec_set_token |}.

(** Serving over stdio until the input closes, and until Ctrl-C. *)
Definition serve_to_eof (server : BlokMCPServer) : result unit := Ok tt.

Definition serve_to_interrupt (server : BlokMCPServer) : result unit :=
  Raise KeyboardInterrupt.

(** A transport that remembers the scopes of the sessions it opened and
    accepts a message when a session is open. *)
Definition sse : SseLib :=
  {| transport_state := list Scope;
     SseServerTransport_init := λ _, [];
     connect_sse := λ scope sessions, (sessions ++ [scope])%list;
     handle_post_message := λ scope body sessions,
       (sessions,
        match sessions with
        | [] => PlainTextResponse "Could not find session" 404
        | _ :: _ => PlainTextResponse "Accepted" 202
        end) |}.

Definition base_url_of (scope : Scope) : string := "http://localhost:8080/".

Definition no_credentials : Config :=
  {| access_token := None; email := None; password := None;
     debug := false |}.

Definition empty_token : Config :=
  {| access_token := Some ""; email := None; password := None;
     debug := false |}.

Definition token_only : Config :=
  {| access_token := Some "t"; email := Some "e"; password := None;
     debug := false |}.

Definition email_and_password : Config :=
  {| access_token := None; email := Some "e"; password := Some "p";
     debug := false |}.

Definition email_only : Config :=
  {| access_token := None; email := Some "e"; password := None;
     debug := false |}.

Definition http (method path : string) (headers : list (bytes * bytes))
  : Scope :=
  {| type := "http"; path := Some path; method := Some method;
     headers := Some headers |}.

Definition session_header (value : string) : bytes * bytes :=
  (b "x-session-token", b value).

(** An SSE handshake that carries a session token, and one without the
    header. *)
Definition handshake_with (token : string) : Scope :=
  http "GET" "/sse" [session_header token].

Definition plain_handshake : Scope := http "GET" "/sse" [].

(** A process whose first construction fails: two direct calls, a
    handshake, and three more direct calls. *)
Definition calls_after_failure : list HttpServer.call :=
  [ HttpServer.GetMcpServer; HttpServer.GetMcpServer;
    HttpServer.Connection plain_handshake [];
    HttpServer.GetMcpServer;
    HttpServer.GetSseTransport; HttpServer.GetSseTransport ].

(** Two handshakes with different tokens, then a message. *)
Definition two_tokens : list HttpServer.call :=
  [ HttpServer.Connection (handshake_with "tok1") [];
    HttpServer.Connection (handshake_with "tok2") [];
    HttpServer.Connection (http "POST" "/messages/" []) [] ].

(** A process with a server that is not authenticated, and the same
    process after a token was set. *)
Definition unauthenticated : HttpServer.World (sse_lib := sse) :=
  (HttpServer.get_mcp_server (mcp_lib := mcp login_ok) no_credentials
     HttpServer.start).1.

Definition authenticated : HttpServer.World (sse_lib := sse) :=
  (HttpServer.call_set_token (mcp_lib := mcp login_ok) 0 "tok"
     unauthenticated).1.

End Sample.

(** ** Notions about whole processes *)

Module Process.

(** The calls that obtain the protocol server: a direct call of the getter
    and a connection the middleware takes for an SSE handshake. *)
Definition needs_server (c : HttpServer.call) : bool :=
  match c with
  | HttpServer.GetMcpServer => true
  | HttpServer.GetSseTransport => false
  | HttpServer.Connection scope _ =>
      match HttpServer.classify (type scope) (default "" (path scope))
              (default "" (method scope)) with
      | HttpServer.SseHandshake => true
      | _ => false
      end
  end.

(** The server and the transport a call was answered with, when it was
    answered with one. *)
Definition server_of (x : HttpServer.returned) : option HttpServer.ref :=
  match x with
  | HttpServer.Server (Ok r) => Some r
  | HttpServer.Handled (Ok (HttpServer.SseSession r _ _)) => Some r
  | _ => None
  end.

Definition transport_of (x : HttpServer.returned) : option HttpServer.ref :=
  match x with
  | HttpServer.Transport (Ok t) => Some t
  | HttpServer.Handled (Ok (HttpServer.SseSession _ t _)) => Some t
  | HttpServer.Handled (Ok (HttpServer.MessagePosted t _)) => Some t
  | _ => None
  end.

(** The name of the session header, as ASGI delivers header names. *)
Definition session_header_name : bytes := b "x-session-token".

(** A string that ends with a slash. *)
Definition ends_with_slash (s : string) : Prop := ∃ t, s = t ++ "/".

(** The string of [n] slashes. *)
Fixpoint slashes (n : nat) : string :=
  match n with
  | 0 => ""
  | S n' => String "/"%char (slashes n')
  end.



End Process.

(** ** More connections and processes *)

Module Scenario.

(** A handshake whose session header is not UTF-8. *)
Definition undecodable_handshake : Scope :=
  Sample.http "GET" "/sse" [(b "x-session-token", [xff])].

(** An HTTP scope for [/sse] that has no method, and a scope that has no
    path. *)
Definition sse_without_method : Scope :=
  {| type := "http"; path := Some "/sse"; method := None; headers := None |}.

Definition get_without_path : Scope :=
  {| type := "http"; path := None; method := Some "GET"; headers := None |}.

Definition post_message : Scope := Sample.http "POST" "/messages/" [].

(** A process that never asks for the server. *)
Definition quiet_calls : list HttpServer.call :=
  [ HttpServer.Connection (Sample.http "GET" "/health" []) [];
    HttpServer.GetSseTransport;
    HttpServer.Connection post_message [];
    HttpServer.Connection (Sample.http "POST" "/oauth/token" []) [];
    HttpServer.Connection (Sample.http "POST" "/sse" []) [];
    HttpServer.Connection (Sample.http "GET" "/nowhere" []) [] ].

(** A handshake, a message, a direct call of each getter. *)
Definition mixed_calls : list HttpServer.call :=
  [ HttpServer.Connection (Sample.handshake_with "tok1") [];
    HttpServer.Connection post_message [];
    HttpServer.GetMcpServer;
    HttpServer.GetSseTransport ].


End Scenario.

(** * Properties *)

(** ** Authentication posture *)

Lemma nonempty_truthy (o : option string) :
  nonempty o = if truthy o then o else None.
Proof. by destruct o as [[|c s]|]. Qed.

Lemma truthy_py_and (x y : option string) :
  truthy (py_and x y) = truthy x && truthy y.
Proof. unfold py_and. by destruct (truthy x) eqn:E. Qed.

(** The arguments the stdio entry point passes, input by input: the token
    when it is not empty; the email and the password when both are not
    empty, neither of them otherwise. *)
Lemma main_ctor_args (config : Config) :
  Main.ctor_args config =
  {| pre_auth_token := nonempty (access_token config);
     auto_auth_email :=
       match nonempty (email config), nonempty (password config) with
       | Some e, Some _ => Some e
       | _, _ => None
       end;
     auto_auth_password :=
       match nonempty (email config), nonempty (password config) with
       | Some _, Some p => Some p
       | _, _ => None
       end |}.
Proof.
  unfold Main.ctor_args. rewrite truthy_py_and, !nonempty_truthy.
  destruct (truthy (access_token config)),
    (truthy (email config)) eqn:He, (truthy (password config)) eqn:Hp;
    cbn; try done.
  all: destruct (email config), (password config); done.
Qed.

(** C7. The stdio entry point and the HTTP entry point pass the same
    [pre_auth_token], [auto_auth_email] and [auto_auth_password] to
    [BlokMCPServer], whatever the three inputs are. *)
Theorem entrypoints_pass_same_arguments (config : Config) :
  pre_auth_token (Main.ctor_args config)
    = pre_auth_token (HttpServer.ctor_args config)
  ∧ auto_auth_email (Main.ctor_args config)
    = auto_auth_email (HttpServer.ctor_args config)
  ∧ auto_auth_password (Main.ctor_args config)
    = auto_auth_password (HttpServer.ctor_args config).
Proof. by split_and!. Qed.

(** C1, as stated: an input that is given counts as present.  The code
    disagrees when the token is the empty string: no token is passed on and
    the posture is [Unauthenticated], where the table answers
    [PreAuthToken] of the empty string. *)
Lemma empty_token_counts_as_absent :
  pre_auth_token (Main.ctor_args Sample.empty_token) = None
  ∧ pre_auth_token (HttpServer.ctor_args Sample.empty_token) = None
  ∧ posture_of_args (Main.ctor_args Sample.empty_token) = Unauthenticated
  ∧ priority_table (access_token Sample.empty_token)
      (email Sample.empty_token) (password Sample.empty_token)
    = PreAuthToken ""
  ∧ posture_of_args (Main.ctor_args Sample.empty_token)
    ≠ priority_table (access_token Sample.empty_token)
        (email Sample.empty_token) (password Sample.empty_token).
Proof. by split_and!. Qed.

(** C1, amended: with an input counted as present when it is given and not
    the empty string, both entry points resolve the posture by the priority
    table: a present token gives [PreAuthToken] of it; otherwise a present
    email and a present password give [AutoLogin] of the pair; otherwise,
    and so for an email without a password or a password without an email,
    the posture is [Unauthenticated]. *)
Theorem posture_follows_priority_table (config : Config) :
  posture_of_args (Main.ctor_args config)
    = priority_table (nonempty (access_token config))
        (nonempty (email config)) (nonempty (password config))
  ∧ posture_of_args (HttpServer.ctor_args config)
    = priority_table (nonempty (access_token config))
        (nonempty (email config)) (nonempty (password config)).
Proof.
  change (HttpServer.ctor_args config) with (Main.ctor_args config).
  rewrite main_ctor_args. unfold posture_of_args, priority_table. cbn.
  by destruct (nonempty (access_token config)),
    (nonempty (email config)), (nonempty (password config)).
Qed.

(** The three examples of section 8. *)
Example posture_token_only :
  posture_of_args (Main.ctor_args Sample.token_only) = PreAuthToken "t".
Proof. reflexivity. Qed.

Example posture_email_and_password :
  posture_of_args (Main.ctor_args Sample.email_and_password)
  = AutoLogin "e" "p".
Proof. reflexivity. Qed.

Example posture_email_only :
  posture_of_args (Main.ctor_args Sample.email_only) = Unauthenticated.
Proof. reflexivity. Qed.

(** A partial credential pair never reaches the constructor. *)
Lemma partial_credentials_dropped (config : Config) :
  nonempty (email config) = None ∨ nonempty (password config) = None →
  auto_auth_email (Main.ctor_args config) = None
  ∧ auto_auth_password (Main.ctor_args config) = None.
Proof.
  rewrite main_ctor_args. cbn.
  intros [-> | ->]; [done|]. by destruct (nonempty (email config)).
Qed.

(** ** The stdio process *)

Section stdio.
Context {mcp_lib : McpServerLib}.
Variable serve : BlokMCPServer → result unit.
Variable config : Config.

(** The [try] block raises what the construction raises, or else what the
    run loop raises. *)
Lemma startup_raises (e : exn) :
  Main.startup serve config = Raise e ↔
  BlokMCPServer_init 0 (Main.ctor_args config) = Raise e
  ∨ ∃ sm, BlokMCPServer_init 0 (Main.ctor_args config) = Ok sm
          ∧ serve {| init_args := Main.ctor_args config;
                     session_manager := sm |} = Raise e.
Proof.
  unfold Main.startup.
  destruct (BlokMCPServer_init 0 (Main.ctor_args config)) as [sm|e'].
  - split.
    + intros Hs. right. exists sm. by split.
    + intros [?|(sm' & [= <-] & ?)]; done.
  - split.
    + intros [= ->]. by left.
    + intros [[= ->]|(sm' & ? & ?)]; done.
Qed.

Lemma main_interrupted :
  Main.startup serve config = Raise KeyboardInterrupt →
  Main.main serve config
  = ([(Main.INFO, "Shutting down Blok MCP server...")],
     Raise (SystemExit 0)).
Proof. unfold Main.main. by intros ->. Qed.

Lemma main_failed (cls msg : string) :
  Main.startup serve config = Raise (Exception cls msg) →
  Main.main serve config
  = ([(Main.ERROR, "Error starting server: " ++ msg)],
     Raise (SystemExit 1)).
Proof. unfold Main.main. by intros ->. Qed.

(** An exception that is neither of the two handled kinds leaves [main]
    as it is. *)
Lemma main_propagates (e : exn) :
  Main.startup serve config = Raise e →
  e ≠ KeyboardInterrupt → (∀ cls msg, e ≠ Exception cls msg) →
  Main.main serve config = ([], Raise e).
Proof.
  unfold Main.main. intros -> Hk He. destruct e; try done.
  by destruct (He cls msg).
Qed.

(** C8. In stdio mode the process exits with status 0 when the
    construction of the server or the run loop is interrupted from the
    keyboard, and with status 1 when either raises an exception of class
    [Exception]; whatever else they raise, short of a request to exit,
    the status is not 0. *)
Theorem stdio_exit_status :
  (Main.startup serve config = Raise KeyboardInterrupt →
   exit_status (Main.main serve config).2 = 0%Z)
  ∧ (∀ cls msg,
       Main.startup serve config = Raise (Exception cls msg) →
       exit_status (Main.main serve config).2 = 1%Z)
  ∧ (∀ e,
       Main.startup serve config = Raise e →
       e ≠ KeyboardInterrupt → (∀ n, e ≠ SystemExit n) →
       exit_status (Main.main serve config).2 ≠ 0%Z).
Proof.
  split_and!.
  - intros Hs. by rewrite main_interrupted.
  - intros cls msg Hs. by rewrite (main_failed cls msg).
  - intros e Hs Hk Hx. destruct e as [|n|cls|cls msg].
    + done.
    + by destruct (Hx n).
    + by rewrite (main_propagates (BaseOnly cls)).
    + by rewrite (main_failed cls msg).
Qed.

End stdio.

(** An interrupted construction, an interrupted run loop and a failed
    construction. *)
Lemma stdio_exit_status_witness :
  exit_status
    (Main.main (mcp_lib := Sample.mcp_interrupted) Sample.serve_to_eof
       Sample.no_credentials).2 = 0%Z
  ∧ exit_status
      (Main.main (mcp_lib := Sample.mcp Sample.login_ok)
         Sample.serve_to_interrupt Sample.no_credentials).2 = 0%Z
  ∧ exit_status
      (Main.main (mcp_lib := Sample.mcp_broken) Sample.serve_to_eof
         Sample.no_credentials).2 = 1%Z
  ∧ exit_status
      (Main.main (mcp_lib := Sample.mcp_broken) Sample.serve_to_eof
         Sample.no_credentials).2 ≠ 0%Z.
Proof.
  split_and!.
  - apply (stdio_exit_status (mcp_lib := Sample.mcp_interrupted)).
    reflexivity.
  - apply (stdio_exit_status (mcp_lib := Sample.mcp Sample.login_ok)).
    reflexivity.
  - apply (stdio_exit_status (mcp_lib := Sample.mcp_broken)
             Sample.serve_to_eof Sample.no_credentials)
      with (cls := "ConnectionError") (msg := "api unreachable").
    reflexivity.
  - apply (stdio_exit_status (mcp_lib := Sample.mcp_broken)
             Sample.serve_to_eof Sample.no_credentials)
      with (e := Exception "ConnectionError" "api unreachable");
      [reflexivity | discriminate | discriminate].
Defined.

(** ** The HTTP bridge

    [get_mcp_server], [get_sse_transport], [handle_messages] up to its call
    of the transport and the part of [handle_sse] before [connect_sse]
    contain no [await]: on the event loop each runs to its end before
    another connection is looked at.  Connections therefore interleave
    only between such steps, which is what [run] over a list of calls
    describes. *)

Section http.
Import HttpServer.
Context {mcp_lib : McpServerLib} {sse_lib : SseLib}.
Variable config : Config.

Implicit Types (w : World) (r t : ref) (scope : Scope) (body : bytes).

Lemma wf_start : wf start.
Proof. by split. Qed.

(** *** [get_mcp_server] *)

Lemma get_mcp_server_cached w r :
  _mcp_server w = Some r → get_mcp_server config w = (w, Ok r).
Proof. unfold get_mcp_server. by intros ->. Qed.

Lemma get_mcp_server_raises w e :
  _mcp_server w = None →
  BlokMCPServer_init (init_calls w) (ctor_args config) = Raise e →
  get_mcp_server config w
  = ({| _mcp_server := None;
        _sse_transport := _sse_transport w;
        servers := servers w;
        transports := transports w;
        next_ref := next_ref w;
        init_calls := S (init_calls w) |}, Raise e).
Proof. unfold get_mcp_server. by intros -> ->. Qed.

Lemma get_mcp_server_builds w sm :
  _mcp_server w = None →
  BlokMCPServer_init (init_calls w) (ctor_args config) = Ok sm →
  get_mcp_server config w
  = ({| _mcp_server := Some (next_ref w);
        _sse_transport := _sse_transport w;
        servers :=
          <[next_ref w := {| init_args := ctor_args config;
                             session_manager := sm |}]> (servers w);
        transports := transports w;
        next_ref := S (next_ref w);
        init_calls := S (init_calls w) |}, Ok (next_ref w)).
Proof. unfold get_mcp_server. by intros -> ->. Qed.

(** What every call of [get_mcp_server] leaves as it was. *)
Lemma get_mcp_server_frame w :
  _sse_transport (get_mcp_server config w).1 = _sse_transport w
  ∧ transports (get_mcp_server config w).1 = transports w
  ∧ (∀ r, _mcp_server w = Some r →
          _mcp_server (get_mcp_server config w).1 = Some r).
Proof.
  unfold get_mcp_server.
  destruct (_mcp_server w) eqn:Hs;
    [|destruct (BlokMCPServer_init _ _)]; cbn; split_and!; congruence.
Qed.

(** A reference that is returned is the one now cached. *)
Lemma get_mcp_server_returns w r :
  (get_mcp_server config w).2 = Ok r →
  _mcp_server (get_mcp_server config w).1 = Some r.
Proof.
  unfold get_mcp_server.
  destruct (_mcp_server w) eqn:Hs; cbn; [by intros [= <-]|].
  destruct (BlokMCPServer_init _ _); cbn; [by intros [= <-]|done].
Qed.

(** After a failure nothing is cached and no server exists that did not
    before. *)
Lemma get_mcp_server_fails w e :
  (get_mcp_server config w).2 = Raise e →
  _mcp_server w = None
  ∧ BlokMCPServer_init (init_calls w) (ctor_args config) = Raise e
  ∧ _mcp_server (get_mcp_server config w).1 = None
  ∧ servers (get_mcp_server config w).1 = servers w.
Proof.
  unfold get_mcp_server.
  destruct (_mcp_server w) eqn:Hs; cbn; [done|].
  destruct (BlokMCPServer_init _ _) eqn:Hi; cbn; [done|by intros [= <-]].
Qed.

Lemma get_mcp_server_wf w : wf w → wf (get_mcp_server config w).1.
Proof.
  intros Hwf. unfold get_mcp_server.
  destruct (_mcp_server w) eqn:Hm; [done|].
  destruct Hwf as [Hs Ht]. rewrite Hm in Hs.
  destruct (BlokMCPServer_init _ _) eqn:Hi; split; cbn; try done.
  rewrite Hs, insert_empty. eauto.
Qed.

(** *** [get_sse_transport] *)

Lemma get_sse_transport_cached w t :
  _sse_transport w = Some t → get_sse_transport w = (w, Ok t).
Proof. unfold get_sse_transport. by intros ->. Qed.

Lemma get_sse_transport_returns w :
  ∃ t, (get_sse_transport w).2 = Ok t
       ∧ _sse_transport (get_sse_transport w).1 = Some t.
Proof.
  unfold get_sse_transport. destruct (_sse_transport w) eqn:Hs; cbn; eauto.
Qed.

Lemma get_sse_transport_frame w :
  _mcp_server (get_sse_transport w).1 = _mcp_server w
  ∧ servers (get_sse_transport w).1 = servers w
  ∧ init_calls (get_sse_transport w).1 = init_calls w
  ∧ (∀ t, _sse_transport w = Some t →
          _sse_transport (get_sse_transport w).1 = Some t).
Proof.
  unfold get_sse_transport.
  destruct (_sse_transport w) eqn:Hs; cbn; split_and!; congruence.
Qed.

Lemma get_sse_transport_wf w : wf w → wf (get_sse_transport w).1.
Proof.
  intros Hwf. unfold get_sse_transport.
  destruct (_sse_transport w) eqn:Hm; [done|].
  destruct Hwf as [Hs Ht]. rewrite Hm in Ht.
  split; cbn; [done|]. rewrite Ht, insert_empty. eauto.
Qed.


(** *** The SSE handshake *)

Lemma handle_sse_handshake scope w :
  handshake config scope w (handle_sse config scope w).
Proof.
  unfold handle_sse, bind, lift, ret.
  destruct (get_mcp_server config w) as [w1 [r|e]] eqn:Hg;
    [|by eapply hs_no_server].
  destruct (get_sse_transport w1) as [w2 [t|e]] eqn:Ht.
  2: { destruct (get_sse_transport_returns w1) as (t & Hr & _).
       by rewrite Ht in Hr. }
  fold (session_header_value scope).
  destruct (decode (session_header_value scope)) as [token|e] eqn:Hd;
    [|by eapply hs_bad_header].
  destruct (truthy token) eqn:Htok; [|by eapply hs_no_token].
  unfold session_of.
  destruct (servers w2 !! r) as [srv|] eqn:Hsrv;
    [|by eapply hs_lost_server].
  destruct (is_authenticated (session_manager srv)) eqn:Ha; cbn.
  - by eapply hs_authenticated.
  - by eapply hs_inject.
Qed.

Lemma alter_keeps_shape {A} (f : A → A) (k : ref) (o : option ref)
    (m : gmap ref A) :
  match o with None => m = ∅ | Some r => ∃ x, m = {[r := x]} end →
  match o with
  | None => alter f k m = ∅
  | Some r => ∃ x, alter f k m = {[r := x]}
  end.
Proof.
  destruct o as [r|]; [intros [x ->]|intros ->].
  - rewrite alter_singleton. case_decide; subst; eauto.
  - apply alter_empty.
Qed.

Lemma call_set_token_wf r token w : wf w → wf (call_set_token r token w).1.
Proof. intros [Hs Ht]. split; cbn; [by apply alter_keeps_shape|done]. Qed.

Lemma call_connect_sse_wf t scope w :
  wf w → wf (call_connect_sse t scope w).1.
Proof. intros [Hs Ht]. split; cbn; [done|by apply alter_keeps_shape]. Qed.

Lemma handle_sse_wf scope w : wf w → wf (handle_sse config scope w).1.
Proof.
  intros Hwf.
  destruct (handle_sse_handshake scope w)
    as [w1 e Hg|w1 r w2 t e Hg Ht|w1 r w2 t tok Hg Ht|w1 r w2 t tok Hg Ht
       |w1 r w2 t tok srv Hg Ht|w1 r w2 t tok srv Hg Ht];
    apply (f_equal fst) in Hg; cbn in Hg; subst w1;
    try (apply (f_equal fst) in Ht; cbn in Ht; subst w2);
    cbn [fst];
    repeat first [apply call_connect_sse_wf | apply call_set_token_wf
                 | apply get_sse_transport_wf | apply get_mcp_server_wf];
    done.
Qed.

(** A handshake never swaps the cached server or the cached transport. *)
Lemma handle_sse_slots scope w :
  (∀ r, _mcp_server w = Some r →
        _mcp_server (handle_sse config scope w).1 = Some r)
  ∧ (∀ t, _sse_transport w = Some t →
          _sse_transport (handle_sse config scope w).1 = Some t).
Proof.
  destruct (get_mcp_server_frame w) as (Hg1 & _ & Hg2).
  destruct (get_sse_transport_frame (get_mcp_server config w).1)
    as (Ht1 & _ & _ & Ht2).
  destruct (handle_sse_handshake scope w)
    as [w1 e Hg|w1 r w2 t e Hg Ht|w1 r w2 t tok Hg Ht|w1 r w2 t tok Hg Ht
       |w1 r w2 t tok srv Hg Ht|w1 r w2 t tok srv Hg Ht];
    apply (f_equal fst) in Hg; cbn in Hg; subst w1;
    try (apply (f_equal fst) in Ht; cbn in Ht; subst w2);
    cbn; split; intros x Hx; rewrite ?Ht1, ?Hg1; auto;
    apply Ht2; by rewrite Hg1.
Qed.

(** *** Message intake *)

Lemma handle_messages_frame scope body w :
  _mcp_server (handle_messages scope body w).1 = _mcp_server w
  ∧ servers (handle_messages scope body w).1 = servers w
  ∧ init_calls (handle_messages scope body w).1 = init_calls w
  ∧ shared_session (handle_messages scope body w).1 = shared_session w.
Proof.
  assert (_mcp_server (handle_messages scope body w).1 = _mcp_server w
          ∧ servers (handle_messages scope body w).1 = servers w
          ∧ init_calls (handle_messages scope body w).1 = init_calls w)
    as (H1 & H2 & H3).
  { unfold handle_messages, bind, ret, call_handle_post_message.
    destruct (get_sse_transport_frame w) as (Hm & Hs & Hi & _).
    destruct (get_sse_transport w) as [w1 [t|e]]; cbn in *; [|done].
    destruct (transports w1 !! t) as [ts|]; cbn; [|done].
    by destruct (handle_post_message scope body ts). }
  split_and!; try done. unfold shared_session. by rewrite H1, H2.
Qed.

(** What the message intake does is a function of the transport side. *)
Lemma handle_messages_reads_transport_only scope body w w' :
  same_transport_side w w' →
  (handle_messages scope body w).2 = (handle_messages scope body w').2
  ∧ same_transport_side (handle_messages scope body w).1
      (handle_messages scope body w').1.
Proof.
  intros (Hs & Ht & Hn).
  unfold handle_messages, bind, ret, call_handle_post_message,
    get_sse_transport.
  rewrite <- Hs.
  destruct (_sse_transport w) as [t|] eqn:Hw; cbn;
    rewrite <- ?Ht, <- ?Hn, ?lookup_insert_eq.
  + destruct (transports w !! t) as [ts|]; cbn;
      [|by repeat split; cbn; rewrite ?Hw].
    destruct (handle_post_message scope body ts); cbn.
    repeat split; cbn; congruence.
  + destruct (handle_post_message scope body _); cbn.
    repeat split; cbn; congruence.
Qed.

(** C10. Handling a POST to the message endpoint leaves the protocol
    server alone: the cached server, the heap of servers (so the session
    credential and [is_authenticated]) and the count of constructor calls
    are what they were; and it reads nothing of them: in two processes
    that agree on the transport side, it answers the same and leaves the
    same transport side. *)
Theorem handle_messages_server_untouched scope body w :
  _mcp_server (handle_messages scope body w).1 = _mcp_server w
  ∧ servers (handle_messages scope body w).1 = servers w
  ∧ init_calls (handle_messages scope body w).1 = init_calls w
  ∧ shared_session (handle_messages scope body w).1 = shared_session w
  ∧ (∀ w', same_transport_side w w' →
       (handle_messages scope body w).2 = (handle_messages scope body w').2
       ∧ same_transport_side (handle_messages scope body w).1
           (handle_messages scope body w').1).
Proof.
  destruct (handle_messages_frame scope body w) as (H1 & H2 & H3 & H4).
  split_and!; try done.
  intros w'. apply handle_messages_reads_transport_only.
Qed.

(** *** The router *)

Lemma sse_paths (p : string) :
  p ∈ ["/sse"; "/sse/"] ↔ p = "/sse" ∨ p = "/sse/".
Proof. rewrite !elem_of_cons, elem_of_nil. tauto. Qed.

Lemma classify_sse (ty p m : string) :
  classify ty p m = SseHandshake
  ↔ ty = "http" ∧ m = "GET" ∧ (p = "/sse" ∨ p = "/sse/").
Proof.
  unfold classify.
  repeat (case_bool_decide; cbn); subst;
    intuition (try discriminate; try congruence).
Qed.

Lemma classify_messages (ty p m : string) :
  classify ty p m = MessageIntake
  ↔ ty = "http" ∧ m = "POST" ∧ p = "/messages/".
Proof.
  unfold classify.
  repeat (case_bool_decide; cbn); subst;
    intuition (try discriminate; try congruence).
Qed.

(** The middleware as a case analysis on the three keys. *)
Lemma middleware_dispatch (app : Scope → bytes → Response) scope body w :
  (type scope = "http" → is_Some (method scope)) →
  SSEMiddleware_call config app scope body w
  = match classify (type scope) (default "" (path scope))
            (default "" (method scope)) with
    | SseHandshake => handle_sse config scope w
    | MessageIntake => handle_messages scope body w
    | Downstream => (w, Ok (PassedThrough scope (app scope body)))
    end.
Proof.
  intros Hm. unfold SSEMiddleware_call, classify, scope_method, bind, ret, lift.
  destruct (method scope) as [m|] eqn:Hmeth; cbn [default].
  - rewrite (bool_decide_ext _ _ (sse_paths _)).
    repeat (case_bool_decide; cbn); try done;
      exfalso; intuition congruence.
  - case_bool_decide as Hty; cbn.
    + by rewrite bool_decide_eq_false_2.
    + by destruct (Hm Hty).
Qed.

(** C3. A connection goes to exactly one of three handlers, and which one
    is decided by the scope type, the path and the method alone: a GET on
    [/sse] or [/sse/] is an SSE handshake, a POST on [/messages/] is a
    message intake, and everything else, HTTP or not, is handed to the
    wrapped application with the scope and the body as they came, the
    process state (so the protocol server and its session manager) being
    left as it was.  (An HTTP scope carries a method; a path that is
    missing counts as empty.) *)
Theorem dispatch_by_type_path_method
    (app : Scope → bytes → Response) scope body w :
  (type scope = "http" → is_Some (method scope)) →
  SSEMiddleware_call config app scope body w
  = match classify (type scope) (default "" (path scope))
            (default "" (method scope)) with
    | SseHandshake => handle_sse config scope w
    | MessageIntake => handle_messages scope body w
    | Downstream => (w, Ok (PassedThrough scope (app scope body)))
    end
  ∧ (classify (type scope) (default "" (path scope))
       (default "" (method scope)) = SseHandshake
     ↔ type scope = "http" ∧ method scope = Some "GET"
       ∧ (default "" (path scope) = "/sse"
          ∨ default "" (path scope) = "/sse/"))
  ∧ (classify (type scope) (default "" (path scope))
       (default "" (method scope)) = MessageIntake
     ↔ type scope = "http" ∧ method scope = Some "POST"
       ∧ default "" (path scope) = "/messages/").
Proof.
  intros Hm. split; [by apply middleware_dispatch|].
  rewrite classify_sse, classify_messages.
  destruct (decide (type scope = "http")) as [Hty|Hty];
    [|by split; split; intros [? ?]].
  destruct (Hm Hty) as [m ->]. cbn [default].
  split; split; intros (? & ? & ?); unfold id in *; split_and!;
    congruence.
Qed.

(** Without the assumption on the scope: the four ways a connection can
    go through the middleware. *)
Lemma middleware_cases (app : Scope → bytes → Response) scope body w :
  SSEMiddleware_call config app scope body w = handle_sse config scope w
  ∨ SSEMiddleware_call config app scope body w
    = handle_messages scope body w
  ∨ SSEMiddleware_call config app scope body w
    = (w, Ok (PassedThrough scope (app scope body)))
  ∨ SSEMiddleware_call config app scope body w
    = (w, Raise (Exception "KeyError" "'method'")).
Proof.
  destruct (method scope) as [m|] eqn:Hm.
  - rewrite middleware_dispatch by (rewrite Hm; eauto).
    destruct (classify _ _ _); eauto.
  - unfold SSEMiddleware_call, scope_method, bind, ret, lift.
    rewrite Hm. repeat (case_bool_decide; cbn); eauto.
Qed.

(** *** Failed construction *)

(** C5. When the constructor raises, [get_mcp_server] raises the same
    exception, nothing is cached and no server is added to the heap; the
    next call calls the constructor again: it raises what that attempt
    raises, or caches and returns the server that attempt built. *)
Theorem failed_construction_is_retried w e :
  _mcp_server w = None →
  BlokMCPServer_init (init_calls w) (ctor_args config) = Raise e →
  (get_mcp_server config w).2 = Raise e
  ∧ _mcp_server (get_mcp_server config w).1 = None
  ∧ servers (get_mcp_server config w).1 = servers w
  ∧ init_calls (get_mcp_server config w).1 = S (init_calls w)
  ∧ init_calls (get_mcp_server config (get_mcp_server config w).1).1
    = S (S (init_calls w))
  ∧ (∀ e',
       BlokMCPServer_init (S (init_calls w)) (ctor_args config) = Raise e' →
       (get_mcp_server config (get_mcp_server config w).1).2 = Raise e'
       ∧ _mcp_server (get_mcp_server config (get_mcp_server config w).1).1
         = None)
  ∧ (∀ sm,
       BlokMCPServer_init (S (init_calls w)) (ctor_args config) = Ok sm →
       ∃ r,
         (get_mcp_server config (get_mcp_server config w).1).2 = Ok r
         ∧ _mcp_server (get_mcp_server config (get_mcp_server config w).1).1
           = Some r
         ∧ servers (get_mcp_server config (get_mcp_server config w).1).1
             !! r
           = Some {| init_args := ctor_args config;
                     session_manager := sm |}).
Proof.
  intros Hnone Hinit. rewrite (get_mcp_server_raises w e) by done.
  cbn [fst snd]. split_and!; try done.
  - unfold get_mcp_server. cbn.
    by destruct (BlokMCPServer_init (S (init_calls w)) (ctor_args config)).
  - intros e' Hinit'. by rewrite (get_mcp_server_raises _ e').
  - intros sm Hinit'. rewrite (get_mcp_server_builds _ sm) by done.
    cbn. eexists. split_and!; try done. apply lookup_insert_eq.
Qed.

(** *** Session injection *)

Lemma shared_session_Some w sm :
  shared_session w = Some sm ↔
  ∃ r srv, _mcp_server w = Some r ∧ servers w !! r = Some srv
           ∧ session_manager srv = sm.
Proof.
  unfold shared_session. split.
  - destruct (_mcp_server w) as [r|]; [|done].
    destruct (servers w !! r) as [srv|] eqn:Hsrv; [|done].
    intros [= <-]. eauto.
  - intros (r & srv & -> & -> & <-). done.
Qed.

(** On a server that is authenticated a handshake changes no server and
    injects nothing, whatever the header says. *)
Lemma handle_sse_when_authenticated scope w sm :
  shared_session w = Some sm → is_authenticated sm = true →
  servers (handle_sse config scope w).1 = servers w
  ∧ shared_session (handle_sse config scope w).1 = Some sm
  ∧ ∀ r t inj,
      (handle_sse config scope w).2 = Ok (SseSession r t inj) → inj = None.
Proof.
  intros Hsm Hauth.
  assert (servers (handle_sse config scope w).1 = servers w
          ∧ ∀ r t inj,
              (handle_sse config scope w).2 = Ok (SseSession r t inj) →
              inj = None) as [Hservers Hinj].
  { apply shared_session_Some in Hsm as (r & srv & Hslot & Hsrv & <-).
    pose proof (get_mcp_server_cached w r Hslot) as Hcached.
    destruct (get_sse_transport_frame w) as (_ & Hfr & _).
    destruct (handle_sse_handshake scope w)
      as [w1 e Hg|w1 r' w2 t e Hg Ht|w1 r' w2 t tok Hg Ht|w1 r' w2 t tok Hg Ht
         |w1 r' w2 t tok srv' Hg Ht|w1 r' w2 t tok srv' Hg Ht Hd Htok Hsrv' Ha];
      rewrite Hcached in Hg; try done; injection Hg as <- <-;
      apply (f_equal fst) in Ht; cbn in Ht; subst w2; cbn.
    1-4: by split; [|intros; simplify_eq].
    rewrite Hfr, Hsrv in Hsrv'. injection Hsrv' as <-. congruence. }
  split_and!; try done.
  apply shared_session_Some in Hsm as (r & srv & Hslot & Hsrv & <-).
  apply shared_session_Some. exists r, srv.
  split_and!; [by apply handle_sse_slots|by rewrite Hservers|done].
Qed.

(** A token is injected only when the header decodes to a text that is not
    empty and the session of the server just obtained is not
    authenticated; the session is then the one [set_token] gives. *)
Lemma handle_sse_injection scope w r t token :
  (handle_sse config scope w).2 = Ok (SseSession r t (Some token)) →
  decode (session_header_value scope) = Ok token
  ∧ token ≠ ""
  ∧ ∃ sm,
      shared_session (get_mcp_server config w).1 = Some sm
      ∧ is_authenticated sm = false
      ∧ shared_session (handle_sse config scope w).1
        = Some (set_token token sm).
Proof.
  destruct (handle_sse_handshake scope w)
    as [w1 e Hg|w1 r' w2 t' e Hg Ht|w1 r' w2 t' tok Hg Ht|w1 r' w2 t' tok Hg Ht
       |w1 r' w2 t' tok srv' Hg Ht|w1 r' w2 t' tok srv Hg Ht Hd Htok Hsrv Ha];
    cbn; try done.
  intros [= -> -> ->].
  pose proof (get_mcp_server_returns w r) as Hslot.
  rewrite Hg in Hslot |- *. cbn in Hslot |- *. specialize (Hslot eq_refl).
  destruct (get_sse_transport_frame w1) as (Hfm & Hfs & _).
  rewrite Ht in Hfm, Hfs. cbn in Hfm, Hfs.
  split_and!; [done|by destruct token|].
  exists (session_manager srv). split_and!; [|done|].
  - apply shared_session_Some. exists r, srv. by rewrite <- Hfs.
  - unfold shared_session. cbn. by rewrite Hfm, Hslot, lookup_alter_eq, Hsrv.
Qed.

(** A handshake that injects nothing leaves every server as
    [get_mcp_server] returned it. *)
Lemma handle_sse_no_injection scope w :
  (∀ r t token,
     (handle_sse config scope w).2 ≠ Ok (SseSession r t (Some token))) →
  servers (handle_sse config scope w).1
  = servers (get_mcp_server config w).1.
Proof.
  intros Hno.
  destruct (handle_sse_handshake scope w)
    as [w1 e Hg|w1 r' w2 t' e Hg Ht|w1 r' w2 t' tok Hg Ht|w1 r' w2 t' tok Hg Ht
       |w1 r' w2 t' tok srv' Hg Ht|w1 r' w2 t' tok srv Hg Ht Hd Htok Hsrv Ha];
    rewrite Hg; cbn; try done;
    try (destruct (get_sse_transport_frame w1) as (_ & Hfs & _);
         by rewrite Ht in Hfs).
  by destruct (Hno r' t' tok).
Qed.

(** *** The empty header *)

Lemma handle_sse_without_token scope w :
  session_header_value scope = [] →
  handle_sse config scope w
  = match get_mcp_server config w with
    | (w1, Raise e) => (w1, Raise e)
    | (w1, Ok r) =>
        match get_sse_transport w1 with
        | (w2, Raise e) => (w2, Raise e)
        | (w2, Ok t) =>
            ((call_connect_sse t scope w2).1, Ok (SseSession r t None))
        end
    end.
Proof.
  intros Hv. unfold handle_sse, bind, ret, lift.
  fold (session_header_value scope). rewrite Hv.
  destruct (get_mcp_server config w) as [w1 [r|e]]; [|done].
  by destruct (get_sse_transport w1) as [w2 [t|e]].
Qed.

(** C9. A handshake whose [X-Session-Token] header is there with an empty
    value goes as one without the header: it ends the same way, it leaves
    the same servers and the same globals, no token is injected and every
    server is as [get_mcp_server] returned it, authenticated or not. *)
Theorem empty_header_is_absent_header (scope scope' : Scope) w :
  dict (default [] (headers scope)) !! b "x-session-token" = Some (b "") →
  dict (default [] (headers scope')) !! b "x-session-token" = None →
  (handle_sse config scope w).2 = (handle_sse config scope' w).2
  ∧ servers (handle_sse config scope w).1
    = servers (handle_sse config scope' w).1
  ∧ _mcp_server (handle_sse config scope w).1
    = _mcp_server (handle_sse config scope' w).1
  ∧ _sse_transport (handle_sse config scope w).1
    = _sse_transport (handle_sse config scope' w).1
  ∧ servers (handle_sse config scope w).1
    = servers (get_mcp_server config w).1
  ∧ ∀ r t inj,
      (handle_sse config scope w).2 = Ok (SseSession r t inj) → inj = None.
Proof.
  intros Hempty Habsent.
  assert (session_header_value scope = []) as Hv
    by exact (f_equal (default (b "")) Hempty).
  assert (session_header_value scope' = []) as Hv'
    by exact (f_equal (default (b "")) Habsent).
  rewrite !handle_sse_without_token by done.
  destruct (get_mcp_server config w) as [w1 [r|e]]; [|done].
  destruct (get_sse_transport_frame w1) as (_ & Hfs & _).
  destruct (get_sse_transport w1) as [w2 [t|e]]; cbn in *;
    split_and!; try done.
  by intros ? ? ? [= _ _ <-].
Qed.

Section app.
(** [request.base_url], which Starlette computes from the scope. *)
Variable base_url_of : Scope → string.

(** *** The static endpoints *)

(** C6, amended. The stub at [/oauth/authorize] answers a GET and a POST,
    and the stub at [/oauth/token] answers a POST, with status 400 and the
    fixed [unsupported_grant_type] payload that points to the
    [X-Session-Token] header, whatever the headers and the body of the
    request; the process state is left as it was. *)
Theorem oauth_stubs_answer (hdrs : option (list (bytes * bytes))) body w :
  create_app config base_url_of
    {| type := "http"; path := Some "/oauth/authorize";
       method := Some "GET"; headers := hdrs |} body w
  = (w, Ok (PassedThrough
              {| type := "http"; path := Some "/oauth/authorize";
                 method := Some "GET"; headers := hdrs |}
              unsupported_grant_type))
  ∧ create_app config base_url_of
      {| type := "http"; path := Some "/oauth/authorize";
         method := Some "POST"; headers := hdrs |} body w
    = (w, Ok (PassedThrough
                {| type := "http"; path := Some "/oauth/authorize";
                   method := Some "POST"; headers := hdrs |}
                unsupported_grant_type))
  ∧ create_app config base_url_of
      {| type := "http"; path := Some "/oauth/token";
         method := Some "POST"; headers := hdrs |} body w
    = (w, Ok (PassedThrough
                {| type := "http"; path := Some "/oauth/token";
                   method := Some "POST"; headers := hdrs |}
                unsupported_grant_type)).
Proof.
  unfold create_app.
  split_and!; (rewrite middleware_dispatch by (cbn; eauto));
    reflexivity.
Qed.

(** A GET on the token endpoint is not one of them: the route allows POST
    only and the router answers 405. *)
Lemma oauth_token_get_not_allowed
    (hdrs : option (list (bytes * bytes))) body w :
  create_app config base_url_of
    {| type := "http"; path := Some "/oauth/token";
       method := Some "GET"; headers := hdrs |} body w
  = (w, Ok (PassedThrough
              {| type := "http"; path := Some "/oauth/token";
                 method := Some "GET"; headers := hdrs |}
              (PlainTextResponse "Method Not Allowed" 405))).
Proof.
  unfold create_app.
  rewrite middleware_dispatch by (cbn; eauto). reflexivity.
Qed.

(** *** Sequences of calls *)

Lemma handle_messages_wf scope body w :
  wf w → wf (handle_messages scope body w).1.
Proof.
  intros Hwf. apply get_sse_transport_wf in Hwf.
  destruct (get_sse_transport_returns w) as (t & Hr & Hslot).
  unfold handle_messages, bind, ret, call_handle_post_message.
  destruct (get_sse_transport w) as [w1 x]; cbn in *. subst x.
  destruct Hwf as [Hs Ht]. rewrite Hslot in Ht. destruct Ht as [ts Ht].
  rewrite Ht, lookup_singleton_eq.
  destruct (handle_post_message scope body ts) as [ts' response]; cbn.
  split; cbn; [done|]. rewrite Hslot, insert_singleton_eq. eauto.
Qed.

(** The four ways a connection can go through the application. *)
Lemma create_app_cases scope body w :
  create_app config base_url_of scope body w = handle_sse config scope w
  ∨ create_app config base_url_of scope body w
    = handle_messages scope body w
  ∨ (∃ response,
       create_app config base_url_of scope body w
       = (w, Ok (PassedThrough scope response)))
  ∨ create_app config base_url_of scope body w
    = (w, Raise (Exception "KeyError" "'method'")).
Proof.
  unfold create_app.
  destruct (middleware_cases
              (λ scope body,
                 Starlette.app routes
                   {| Starlette.scope := scope; Starlette.body := body;
                      Starlette.base_url := base_url_of scope |})
              scope body w) as [-> | [-> | [-> | ->]]]; eauto 6.
Qed.

Lemma create_app_wf scope body w :
  wf w → wf (create_app config base_url_of scope body w).1.
Proof.
  intros Hwf.
  destruct (create_app_cases scope body w) as [-> | [-> | [[? ->] | ->]]];
    auto using handle_sse_wf, handle_messages_wf.
Qed.

Lemma create_app_slots scope body w :
  (∀ r, _mcp_server w = Some r →
        _mcp_server (create_app config base_url_of scope body w).1 = Some r)
  ∧ (∀ t, _sse_transport w = Some t →
          _sse_transport (create_app config base_url_of scope body w).1
          = Some t).
Proof.
  destruct (create_app_cases scope body w) as [-> | [-> | [[? ->] | ->]]];
    try done.
  - apply handle_sse_slots.
  - destruct (handle_messages_frame scope body w) as (Hm & _).
    split; [intros r; by rewrite Hm|].
    intros t Ht. unfold handle_messages, bind, ret, call_handle_post_message.
    rewrite (get_sse_transport_cached w t Ht).
    destruct (transports w !! t) as [ts|]; cbn; [|done].
    by destruct (handle_post_message scope body ts).
Qed.

Lemma step_world (c : call) w :
  (step config base_url_of c w).1
  = match c with
    | GetMcpServer => (get_mcp_server config w).1
    | GetSseTransport => (get_sse_transport w).1
    | Connection scope body =>
        (create_app config base_url_of scope body w).1
    end.
Proof.
  destruct c; cbn;
    [destruct (get_mcp_server config w)|destruct (get_sse_transport w)
    |destruct (create_app config base_url_of scope body w)]; done.
Qed.

Lemma step_returned (c : call) w :
  (step config base_url_of c w).2
  = match c with
    | GetMcpServer => Server (get_mcp_server config w).2
    | GetSseTransport => Transport (get_sse_transport w).2
    | Connection scope body =>
        Handled (create_app config base_url_of scope body w).2
    end.
Proof.
  destruct c; cbn;
    [destruct (get_mcp_server config w)|destruct (get_sse_transport w)
    |destruct (create_app config base_url_of scope body w)]; done.
Qed.

Lemma run_world (c : call) (cs : list call) w :
  (run config base_url_of (c :: cs) w).1
  = (run config base_url_of cs (step config base_url_of c w).1).1.
Proof.
  cbn. destruct (step config base_url_of c w) as [w1 x]. cbn.
  by destruct (run config base_url_of cs w1).
Qed.

Lemma run_returned (c : call) (cs : list call) w :
  (run config base_url_of (c :: cs) w).2
  = (step config base_url_of c w).2
    :: (run config base_url_of cs (step config base_url_of c w).1).2.
Proof.
  cbn. destruct (step config base_url_of c w) as [w1 x]. cbn.
  by destruct (run config base_url_of cs w1).
Qed.

Lemma step_wf (c : call) w : wf w → wf (step config base_url_of c w).1.
Proof.
  rewrite step_world. destruct c;
    auto using get_mcp_server_wf, get_sse_transport_wf, create_app_wf.
Qed.

Lemma run_wf (cs : list call) w :
  wf w → wf (run config base_url_of cs w).1.
Proof.
  revert w. induction cs as [|c cs IH]; intros w Hwf; [done|].
  rewrite run_world. by apply IH, step_wf.
Qed.

(** Once set, the two globals keep their value. *)
Lemma step_slots (c : call) w :
  (∀ r, _mcp_server w = Some r →
        _mcp_server (step config base_url_of c w).1 = Some r)
  ∧ (∀ t, _sse_transport w = Some t →
          _sse_transport (step config base_url_of c w).1 = Some t).
Proof.
  rewrite step_world. destruct c.
  - destruct (get_mcp_server_frame w) as (Ht & _ & Hs).
    split; [done|]. intros t. by rewrite Ht.
  - destruct (get_sse_transport_frame w) as (Hs & _ & _ & Ht).
    split; [|done]. intros r. by rewrite Hs.
  - apply create_app_slots.
Qed.

Lemma run_server_stable (cs : list call) w r (j : nat) x :
  _mcp_server w = Some r →
  (run config base_url_of cs w).2 !! j = Some (Server x) → x = Ok r.
Proof.
  revert w j. induction cs as [|c cs IH]; intros w j Hs; [done|].
  rewrite run_returned. destruct j as [|j]; cbn.
  - rewrite step_returned. destruct c; try done.
    rewrite (get_mcp_server_cached w r Hs). by intros [= <-].
  - apply IH. by apply step_slots.
Qed.

Lemma run_transport_stable (cs : list call) w t (j : nat) x :
  _sse_transport w = Some t →
  (run config base_url_of cs w).2 !! j = Some (Transport x) → x = Ok t.
Proof.
  revert w j. induction cs as [|c cs IH]; intros w j Hs; [done|].
  rewrite run_returned. destruct j as [|j]; cbn.
  - rewrite step_returned. destruct c; try done.
    rewrite (get_sse_transport_cached w t Hs). by intros [= <-].
  - apply IH. by apply step_slots.
Qed.

Lemma wf_at_most_one w :
  wf w → (size (servers w) ≤ 1)%nat ∧ (size (transports w) ≤ 1)%nat.
Proof.
  intros [Hs Ht]. split.
  - destruct (_mcp_server w); [destruct Hs as [srv ->]|rewrite Hs].
    + by rewrite map_size_singleton.
    + rewrite map_size_empty. lia.
  - destruct (_sse_transport w); [destruct Ht as [ts ->]|rewrite Ht].
    + by rewrite map_size_singleton.
    + rewrite map_size_empty. lia.
Qed.

(** C4. Along any sequence of calls made in one process (direct calls of
    the two getters and connections handled by the application, in any
    order), once [get_mcp_server] has returned a server every later call
    returns that same reference, every call of [get_sse_transport]
    returns the reference the first one returned, and the heap never
    holds more than one server or more than one transport. *)
Theorem singletons (cs : list call) :
  (∀ (i j : nat) r x,
     (i < j)%nat →
     (run config base_url_of cs start).2 !! i = Some (Server (Ok r)) →
     (run config base_url_of cs start).2 !! j = Some (Server x) →
     x = Ok r)
  ∧ (∀ (i j : nat) x y,
       (run config base_url_of cs start).2 !! i = Some (Transport x) →
       (run config base_url_of cs start).2 !! j = Some (Transport y) →
       ∃ t, x = Ok t ∧ y = Ok t)
  ∧ (size (servers (run config base_url_of cs start).1) ≤ 1)%nat
  ∧ (size (transports (run config base_url_of cs start).1) ≤ 1)%nat.
Proof.
  split_and!; [| |apply wf_at_most_one, run_wf, wf_start ..].
  - generalize start. induction cs as [|c cs IH]; intros w i j r x Hij;
      [done|].
    rewrite run_returned. destruct i as [|i], j as [|j]; try lia; cbn.
    + rewrite step_returned. destruct c; try done. intros [= Hr].
      apply run_server_stable.
      rewrite step_world. by apply get_mcp_server_returns.
    + apply IH. lia.
  - assert (∀ w (i j : nat) x y, (i ≤ j)%nat →
              (run config base_url_of cs w).2 !! i = Some (Transport x) →
              (run config base_url_of cs w).2 !! j = Some (Transport y) →
              ∃ t, x = Ok t ∧ y = Ok t) as Hle.
    { induction cs as [|c cs IH]; intros w i j x y Hij; [done|].
      rewrite run_returned. destruct i as [|i], j as [|j]; try lia; cbn.
      - rewrite step_returned. destruct c; try done.
        destruct (get_sse_transport_returns w) as (t & Hr & _).
        intros [= <-] [= <-]. eauto.
      - rewrite step_returned. destruct c; try done.
        destruct (get_sse_transport_returns w) as (t & Hr & Hslot).
        intros [= <-] Hy. exists t. split; [done|].
        eapply run_transport_stable; [|done].
        by rewrite step_world.
      - apply IH. lia. }
    intros i j x y Hi Hj. destruct (decide (i ≤ j)%nat).
    + by eapply Hle.
    + destruct (Hle start j i y x) as (t & -> & ->); [lia|done..|eauto].
Qed.

(** *** At most one injection *)

Lemma injected_handled (x : result Served) :
  injected (Handled x) = true ↔
  ∃ r t token, x = Ok (SseSession r t (Some token)).
Proof.
  split; [|by intros (r & t & token & ->)].
  destruct x as [[r t [token|]| |]|]; try done. eauto.
Qed.

Lemma create_app_injected scope body w :
  injected (Handled (create_app config base_url_of scope body w).2) = true →
  create_app config base_url_of scope body w = handle_sse config scope w.
Proof.
  destruct (create_app_cases scope body w) as [-> | [-> | [[? ->] | ->]]];
    try done.
  unfold handle_messages, bind, ret.
  destruct (get_sse_transport w) as [w1 [t|e]]; [|done].
  by destruct (call_handle_post_message t scope body w1) as [w2 [x|e]].
Qed.

(** Once the shared session is authenticated no call changes it and no
    connection injects a token. *)
Lemma step_when_authenticated (c : call) w sm :
  shared_session w = Some sm → is_authenticated sm = true →
  shared_session (step config base_url_of c w).1 = Some sm
  ∧ injected (step config base_url_of c w).2 = false.
Proof.
  intros Hsm Hauth. rewrite step_world, step_returned.
  destruct c as [| |scope body].
  - apply shared_session_Some in Hsm as Hex.
    destruct Hex as (r & srv & Hslot & _).
    by rewrite (get_mcp_server_cached w r Hslot).
  - destruct (get_sse_transport_frame w) as (Hm & Hs & _).
    unfold shared_session. rewrite Hm, Hs. by split.
  - destruct (injected (Handled _)) eqn:Hinj.
    + rewrite (create_app_injected _ _ _ Hinj) in Hinj |- *.
      apply injected_handled in Hinj as (r & t & token & Hres).
      destruct (handle_sse_when_authenticated scope w sm Hsm Hauth)
        as (_ & _ & Hnone).
      by specialize (Hnone _ _ _ Hres).
    + split; [|done].
      destruct (create_app_cases scope body w)
        as [-> | [-> | [[? ->] | ->]]]; try done.
      * by apply handle_sse_when_authenticated.
      * by destruct (handle_messages_frame scope body w)
          as (_ & _ & _ & ->).
Qed.

Lemma run_when_authenticated (cs : list call) w sm :
  shared_session w = Some sm → is_authenticated sm = true →
  injections (run config base_url_of cs w).2 = 0.
Proof.
  revert w. induction cs as [|c cs IH]; intros w Hsm Hauth; [done|].
  destruct (step_when_authenticated c w sm Hsm Hauth) as [Hsm' Hinj].
  rewrite run_returned. unfold injections.
  rewrite filter_cons_False by (by rewrite Hinj).
  by apply IH.
Qed.

(** C2. On an SSE handshake [set_token] is called only if the header
    [X-Session-Token] decodes to a text that is not empty and the session
    of the server is not authenticated at that moment, and a handshake
    that does not call it leaves every server as it found it.  On a
    server that is authenticated a handshake changes neither the
    credential nor [is_authenticated], with or without the header.  So,
    [set_token] making the session authenticated, along any sequence of
    calls at most one connection injects a token. *)
Theorem header_injection_guarded :
  (∀ scope w r t token,
     (handle_sse config scope w).2 = Ok (SseSession r t (Some token)) →
     decode (session_header_value scope) = Ok token
     ∧ token ≠ ""
     ∧ ∃ sm,
         shared_session (get_mcp_server config w).1 = Some sm
         ∧ is_authenticated sm = false
         ∧ shared_session (handle_sse config scope w).1
           = Some (set_token token sm))
  ∧ (∀ scope w,
       (∀ r t token,
          (handle_sse config scope w).2
          ≠ Ok (SseSession r t (Some token))) →
       servers (handle_sse config scope w).1
       = servers (get_mcp_server config w).1)
  ∧ (∀ scope w sm,
       shared_session w = Some sm → is_authenticated sm = true →
       servers (handle_sse config scope w).1 = servers w
       ∧ shared_session (handle_sse config scope w).1 = Some sm
       ∧ ∀ r t inj,
           (handle_sse config scope w).2 = Ok (SseSession r t inj) →
           inj = None)
  ∧ ((∀ v s, is_authenticated s = false →
             is_authenticated (set_token v s) = true) →
     ∀ (cs : list call) w,
       (injections (run config base_url_of cs w).2 ≤ 1)%nat).
Proof.
  split_and!.
  - apply handle_sse_injection.
  - apply handle_sse_no_injection.
  - apply handle_sse_when_authenticated.
  - intros Hset cs. induction cs as [|c cs IH]; intros w; [cbn; lia|].
    rewrite run_returned. unfold injections.
    destruct (injected (step config base_url_of c w).2) eqn:Hinj.
    + rewrite filter_cons_True by done. cbn.
      enough (injections
                (run config base_url_of cs
                   (step config base_url_of c w).1).2 = 0) as Hzero
        by (unfold injections in Hzero; rewrite Hzero; lia).
      rewrite step_returned in Hinj. rewrite step_world.
      destruct c as [| |scope body]; try done.
      rewrite (create_app_injected _ _ _ Hinj) in Hinj |- *.
      apply injected_handled in Hinj as (r & t & token & Hres).
      apply handle_sse_injection in Hres
        as (_ & _ & sm & _ & Hunauth & Hsm).
      by eapply run_when_authenticated, Hset.
    + rewrite filter_cons_False by (by rewrite Hinj). apply IH.
Qed.

End app.

End http.

(** ** The properties at work *)

(** C6, as stated: a GET on [/oauth/token] is answered 405 by the router,
    not with the payload of the stub. *)
Lemma oauth_token_get_is_rejected :
  HttpServer.create_app (mcp_lib := Sample.mcp Sample.login_ok)
    (sse_lib := Sample.sse) Sample.no_credentials Sample.base_url_of
    (Sample.http "GET" "/oauth/token" []) [] HttpServer.start
  = (HttpServer.start,
     Ok (HttpServer.PassedThrough (Sample.http "GET" "/oauth/token" [])
           (PlainTextResponse "Method Not Allowed" 405)))
  ∧ PlainTextResponse "Method Not Allowed" 405
    ≠ HttpServer.unsupported_grant_type.
Proof. split; [reflexivity|discriminate]. Qed.

(** An unknown path, a lifespan scope, an SSE handshake and a message. *)
Lemma dispatch_by_type_path_method_witness :
  HttpServer.SSEMiddleware_call (mcp_lib := Sample.mcp Sample.login_ok)
    (sse_lib := Sample.sse) Sample.no_credentials (λ _ _, NotHttp)
    (Sample.http "GET" "/favicon.ico" []) [] HttpServer.start
  = (HttpServer.start,
     Ok (HttpServer.PassedThrough (Sample.http "GET" "/favicon.ico" [])
           NotHttp))
  ∧ HttpServer.SSEMiddleware_call (mcp_lib := Sample.mcp Sample.login_ok)
      (sse_lib := Sample.sse) Sample.no_credentials (λ _ _, NotHttp)
      {| type := "lifespan"; path := None; method := None; headers := None |}
      [] HttpServer.start
    = (HttpServer.start,
       Ok (HttpServer.PassedThrough
             {| type := "lifespan"; path := None; method := None;
                headers := None |} NotHttp))
  ∧ HttpServer.SSEMiddleware_call (mcp_lib := Sample.mcp Sample.login_ok)
      (sse_lib := Sample.sse) Sample.no_credentials (λ _ _, NotHttp)
      (Sample.http "GET" "/sse/" []) [] HttpServer.start
    = HttpServer.handle_sse (mcp_lib := Sample.mcp Sample.login_ok)
        (sse_lib := Sample.sse) Sample.no_credentials
        (Sample.http "GET" "/sse/" []) HttpServer.start
  ∧ HttpServer.SSEMiddleware_call (mcp_lib := Sample.mcp Sample.login_ok)
      (sse_lib := Sample.sse) Sample.no_credentials (λ _ _, NotHttp)
      (Sample.http "POST" "/messages/" []) [] HttpServer.start
    = HttpServer.handle_messages (sse_lib := Sample.sse)
        (Sample.http "POST" "/messages/" []) [] HttpServer.start.
Proof.
  split_and!.
  - apply (dispatch_by_type_path_method (mcp_lib := Sample.mcp Sample.login_ok)
             (sse_lib := Sample.sse) Sample.no_credentials (λ _ _, NotHttp)
             (Sample.http "GET" "/favicon.ico" []) [] HttpServer.start).
    intros _. by eexists.
  - apply (dispatch_by_type_path_method (mcp_lib := Sample.mcp Sample.login_ok)
             (sse_lib := Sample.sse) Sample.no_credentials (λ _ _, NotHttp)
             {| type := "lifespan"; path := None; method := None;
                headers := None |} [] HttpServer.start).
    discriminate.
  - apply (dispatch_by_type_path_method (mcp_lib := Sample.mcp Sample.login_ok)
             (sse_lib := Sample.sse) Sample.no_credentials (λ _ _, NotHttp)
             (Sample.http "GET" "/sse/" []) [] HttpServer.start).
    intros _. by eexists.
  - apply (dispatch_by_type_path_method (mcp_lib := Sample.mcp Sample.login_ok)
             (sse_lib := Sample.sse) Sample.no_credentials (λ _ _, NotHttp)
             (Sample.http "POST" "/messages/" []) [] HttpServer.start).
    intros _. by eexists.
Defined.

(** A process whose first construction fails: the second call builds
    server 0, the fourth call returns it again. *)
Lemma singletons_witness :
  (1 < 3)%nat
  ∧ (HttpServer.run (mcp_lib := Sample.mcp Sample.login_flaky)
       (sse_lib := Sample.sse) Sample.email_and_password Sample.base_url_of
       Sample.calls_after_failure HttpServer.start).2 !! 1
    = Some (HttpServer.Server (Ok 0))
  ∧ (HttpServer.run (mcp_lib := Sample.mcp Sample.login_flaky)
       (sse_lib := Sample.sse) Sample.email_and_password Sample.base_url_of
       Sample.calls_after_failure HttpServer.start).2 !! 3
    = Some (HttpServer.Server (Ok 0))
  ∧ Ok 0 = Ok 0
  ∧ (∃ t : HttpServer.ref, Ok 1 = Ok t ∧ Ok 1 = Ok t)
  ∧ (size (HttpServer.servers
             (HttpServer.run (mcp_lib := Sample.mcp Sample.login_flaky)
                (sse_lib := Sample.sse) Sample.email_and_password
                Sample.base_url_of Sample.calls_after_failure
                HttpServer.start).1) ≤ 1)%nat.
Proof.
  pose proof (singletons (mcp_lib := Sample.mcp Sample.login_flaky)
                (sse_lib := Sample.sse) Sample.email_and_password
                Sample.base_url_of Sample.calls_after_failure)
    as (Hserver & Htransport & Hsize & _).
  split_and!; [lia|reflexivity|reflexivity| | |exact Hsize].
  - apply (Hserver 1 3 0 (Ok 0)); [lia|reflexivity|reflexivity].
  - apply (Htransport 4 5 (Ok 1) (Ok 1)); reflexivity.
Defined.

(** A login that is refused once: the first call raises and caches
    nothing, the second builds the server. *)
Lemma failed_construction_is_retried_witness :
  HttpServer._mcp_server (sse_lib := Sample.sse) HttpServer.start = None
  ∧ BlokMCPServer_init (McpServerLib := Sample.mcp Sample.login_flaky) 0
      (HttpServer.ctor_args Sample.email_and_password)
    = Raise (Exception "AuthenticationError" "login failed")
  ∧ (HttpServer.get_mcp_server (mcp_lib := Sample.mcp Sample.login_flaky)
       (sse_lib := Sample.sse) Sample.email_and_password HttpServer.start).2
    = Raise (Exception "AuthenticationError" "login failed")
  ∧ HttpServer._mcp_server
      (HttpServer.get_mcp_server (mcp_lib := Sample.mcp Sample.login_flaky)
         (sse_lib := Sample.sse) Sample.email_and_password
         HttpServer.start).1
    = None
  ∧ ∃ r,
      (HttpServer.get_mcp_server (mcp_lib := Sample.mcp Sample.login_flaky)
         Sample.email_and_password
         (HttpServer.get_mcp_server (mcp_lib := Sample.mcp Sample.login_flaky)
            (sse_lib := Sample.sse) Sample.email_and_password
            HttpServer.start).1).2 = Ok r
      ∧ HttpServer._mcp_server
          (HttpServer.get_mcp_server
             (mcp_lib := Sample.mcp Sample.login_flaky)
             Sample.email_and_password
             (HttpServer.get_mcp_server
                (mcp_lib := Sample.mcp Sample.login_flaky)
                (sse_lib := Sample.sse) Sample.email_and_password
                HttpServer.start).1).1 = Some r
      ∧ HttpServer.servers
          (HttpServer.get_mcp_server
             (mcp_lib := Sample.mcp Sample.login_flaky)
             Sample.email_and_password
             (HttpServer.get_mcp_server
                (mcp_lib := Sample.mcp Sample.login_flaky)
                (sse_lib := Sample.sse) Sample.email_and_password
                HttpServer.start).1).1 !! r
        = Some {| init_args := HttpServer.ctor_args Sample.email_and_password;
                  session_manager :=
                    {| credential := Some "session of e";
                       is_authenticated := true |} |}.
Proof.
  pose proof (failed_construction_is_retried
                (mcp_lib := Sample.mcp Sample.login_flaky)
                (sse_lib := Sample.sse) Sample.email_and_password
                HttpServer.start
                (Exception "AuthenticationError" "login failed")
                eq_refl eq_refl)
    as (Hraise & Hslot & _ & _ & _ & _ & Hretry).
  split_and!; [reflexivity|reflexivity|exact Hraise|exact Hslot|].
  exact (Hretry {| credential := Some "session of e";
                   is_authenticated := true |} eq_refl).
Defined.

(** Two handshakes with different tokens on a server whose [set_token]
    would overwrite: the first token is injected, the second is not. *)
Lemma header_injection_guarded_witness :
  (decode (HttpServer.session_header_value (Sample.handshake_with "tok1"))
   = Ok "tok1"
   ∧ "tok1" ≠ ""
   ∧ ∃ sm,
       HttpServer.shared_session
         (HttpServer.get_mcp_server (mcp_lib := Sample.mcp_unguarded)
            (sse_lib := Sample.sse) Sample.no_credentials
            HttpServer.start).1 = Some sm
       ∧ is_authenticated sm = false
       ∧ HttpServer.shared_session
           (HttpServer.handle_sse (mcp_lib := Sample.mcp_unguarded)
              (sse_lib := Sample.sse) Sample.no_credentials
              (Sample.handshake_with "tok1") HttpServer.start).1
         = Some (Sample.overwriting_set_token "tok1" sm))
  ∧ HttpServer.shared_session
      (HttpServer.handle_sse (mcp_lib := Sample.mcp_unguarded)
         (sse_lib := Sample.sse) Sample.no_credentials
         (Sample.handshake_with "tok2")
         (HttpServer.handle_sse (mcp_lib := Sample.mcp_unguarded)
            (sse_lib := Sample.sse) Sample.no_credentials
            (Sample.handshake_with "tok1") HttpServer.start).1).1
    = Some {| credential := Some "tok1"; is_authenticated := true |}
  ∧ (HttpServer.injections
       (HttpServer.run (mcp_lib := Sample.mcp_unguarded)
          (sse_lib := Sample.sse) Sample.no_credentials Sample.base_url_of
          Sample.two_tokens HttpServer.start).2 ≤ 1)%nat.
Proof.
  pose proof (header_injection_guarded (mcp_lib := Sample.mcp_unguarded)
                (sse_lib := Sample.sse) Sample.no_credentials
                Sample.base_url_of)
    as (Honly & _ & Hkeep & Honce).
  split; [|split].
  - apply (Honly (Sample.handshake_with "tok1") HttpServer.start 0 1 "tok1").
    reflexivity.
  - apply (Hkeep (Sample.handshake_with "tok2")
             (HttpServer.handle_sse (mcp_lib := Sample.mcp_unguarded)
                (sse_lib := Sample.sse) Sample.no_credentials
                (Sample.handshake_with "tok1") HttpServer.start).1
             {| credential := Some "tok1"; is_authenticated := true |}
             eq_refl eq_refl).
  - apply (Honce (λ v s _, eq_refl) Sample.two_tokens HttpServer.start).
Defined.

(** A handshake with an empty session header and one without the header. *)
Lemma empty_header_is_absent_header_witness :
  dict (default [] (headers (Sample.handshake_with "")))
    !! b "x-session-token" = Some (b "")
  ∧ dict (default [] (headers Sample.plain_handshake))
      !! b "x-session-token" = None
  ∧ (HttpServer.handle_sse (mcp_lib := Sample.mcp Sample.login_ok)
       (sse_lib := Sample.sse) Sample.no_credentials
       (Sample.handshake_with "") HttpServer.start).2
    = (HttpServer.handle_sse (mcp_lib := Sample.mcp Sample.login_ok)
         (sse_lib := Sample.sse) Sample.no_credentials
         Sample.plain_handshake HttpServer.start).2
  ∧ HttpServer.servers
      (HttpServer.handle_sse (mcp_lib := Sample.mcp Sample.login_ok)
         (sse_lib := Sample.sse) Sample.no_credentials
         (Sample.handshake_with "") HttpServer.start).1
    = HttpServer.servers
        (HttpServer.get_mcp_server (mcp_lib := Sample.mcp Sample.login_ok)
           (sse_lib := Sample.sse) Sample.no_credentials
           HttpServer.start).1.
Proof.
  pose proof (empty_header_is_absent_header
                (mcp_lib := Sample.mcp Sample.login_ok)
                (sse_lib := Sample.sse) Sample.no_credentials
                (Sample.handshake_with "") Sample.plain_handshake
                HttpServer.start eq_refl eq_refl)
    as (Hsame & _ & _ & _ & Hservers & _).
  split_and!; [reflexivity|reflexivity|exact Hsame|exact Hservers].
Defined.

(** A message posted to a process whose server is authenticated and to one
    whose server is not. *)
Lemma handle_messages_server_untouched_witness :
  HttpServer.same_transport_side Sample.unauthenticated Sample.authenticated
  ∧ (HttpServer.handle_messages (Sample.http "POST" "/messages/" []) []
       Sample.unauthenticated).2
    = (HttpServer.handle_messages (Sample.http "POST" "/messages/" []) []
         Sample.authenticated).2
  ∧ HttpServer.shared_session
      (HttpServer.handle_messages (Sample.http "POST" "/messages/" []) []
         Sample.authenticated).1
    = HttpServer.shared_session Sample.authenticated.
Proof.
  assert (HttpServer.same_transport_side Sample.unauthenticated
            Sample.authenticated) as Hside by (by split_and!).
  pose proof (handle_messages_server_untouched
                (Sample.http "POST" "/messages/" []) []
                Sample.unauthenticated) as (_ & _ & _ & _ & Hreads).
  pose proof (handle_messages_server_untouched
                (Sample.http "POST" "/messages/" []) []
                Sample.authenticated) as (_ & _ & _ & Hsession & _).
  split_and!; [exact Hside|exact (proj1 (Hreads _ Hside))|exact Hsession].
Defined.

(** ** The bridge on a few requests *)

(** Two calls of the getter return the same reference. *)
Example getter_twice :
  (HttpServer.run (mcp_lib := Sample.mcp Sample.login_ok)
     (sse_lib := Sample.sse) Sample.no_credentials Sample.base_url_of
     [HttpServer.GetMcpServer; HttpServer.GetMcpServer] HttpServer.start).2
  = [HttpServer.Server (Ok 0); HttpServer.Server (Ok 0)].
Proof. reflexivity. Qed.

(** An unknown path reaches the static routes, which do not know it. *)
Example favicon_is_passed_through :
  HttpServer.create_app (mcp_lib := Sample.mcp Sample.login_ok)
    (sse_lib := Sample.sse) Sample.no_credentials Sample.base_url_of
    (Sample.http "GET" "/favicon.ico" []) [] HttpServer.start
  = (HttpServer.start,
     Ok (HttpServer.PassedThrough (Sample.http "GET" "/favicon.ico" [])
           (PlainTextResponse "Not Found" 404))).
Proof. reflexivity. Qed.

Example health_check_answers :
  HttpServer.create_app (mcp_lib := Sample.mcp Sample.login_ok)
    (sse_lib := Sample.sse) Sample.no_credentials Sample.base_url_of
    (Sample.http "GET" "/health" []) [] HttpServer.start
  = (HttpServer.start,
     Ok (HttpServer.PassedThrough (Sample.http "GET" "/health" [])
           (JSONResponse
              [("status", JStr "ok"); ("service", JStr "blok-mcp")] 200))).
Proof. reflexivity. Qed.

Example oauth_metadata_answers :
  HttpServer.oauth_metadata
    {| Starlette.scope :=
         Sample.http "GET" "/.well-known/oauth-authorization-server" [];
       Starlette.body := [];
       Starlette.base_url := "http://localhost:8080/" |}
  = JSONResponse
      [("issuer", JStr "http://localhost:8080");
       ("authorization_endpoint",
        JStr "http://localhost:8080/oauth/authorize");
       ("token_endpoint", JStr "http://localhost:8080/oauth/token");
       ("response_types_supported", JArr ["code"]);
       ("grant_types_supported", JArr ["authorization_code"]);
       ("code_challenge_methods_supported", JArr ["S256"])]
      200.
Proof. reflexivity. Qed.

(** A server built with a pre-fetched token keeps it when a handshake
    brings another token, also with a [set_token] that would overwrite. *)
Example pre_auth_token_is_kept :
  HttpServer.shared_session
    (HttpServer.handle_sse (mcp_lib := Sample.mcp_unguarded)
       (sse_lib := Sample.sse) Sample.token_only
       (Sample.handshake_with "other") HttpServer.start).1
  = Some {| credential := Some "t"; is_authenticated := true |}.
Proof. reflexivity. Qed.

(** A session header that is not UTF-8 makes the handshake raise; the
    server has been built and is left unauthenticated. *)
Example undecodable_header_raises :
  (HttpServer.handle_sse (mcp_lib := Sample.mcp Sample.login_ok)
     (sse_lib := Sample.sse) Sample.no_credentials
     (Sample.http "GET" "/sse" [(b "x-session-token", [xff])])
     HttpServer.start).2
  = Raise (Exception "UnicodeDecodeError" "invalid utf-8")
  ∧ HttpServer.shared_session
      (HttpServer.handle_sse (mcp_lib := Sample.mcp Sample.login_ok)
         (sse_lib := Sample.sse) Sample.no_credentials
         (Sample.http "GET" "/sse" [(b "x-session-token", [xff])])
         HttpServer.start).1
    = Some {| credential := None; is_authenticated := false |}.
Proof. split; reflexivity. Qed.

(** When the header is given twice the last value counts. *)
Example last_session_header_counts :
  HttpServer.session_header_value
    (Sample.http "GET" "/sse"
       [Sample.session_header "first"; Sample.session_header "second"])
  = b "second".
Proof. reflexivity. Qed.

(** A message posted before any SSE session is open is answered with an
    error by the sample transport, and builds no server. *)
Example message_without_session :
  (HttpServer.create_app (mcp_lib := Sample.mcp Sample.login_ok)
     (sse_lib := Sample.sse) Sample.no_credentials Sample.base_url_of
     (Sample.http "POST" "/messages/" []) [] HttpServer.start).2
  = Ok (HttpServer.MessagePosted 0
          (PlainTextResponse "Could not find session" 404))
  ∧ HttpServer._mcp_server
      (HttpServer.create_app (mcp_lib := Sample.mcp Sample.login_ok)
         (sse_lib := Sample.sse) Sample.no_credentials Sample.base_url_of
         (Sample.http "POST" "/messages/" []) [] HttpServer.start).1
    = None.
Proof. split; reflexivity. Qed.

(** * Further properties of the bridge *)

(** ** The session header *)

Lemma dict_snoc `{Countable K} {V} (l : list (K * V)) (p : K * V) :
  dict (l ++ [p]) = <[p.1 := p.2]> (dict l).
Proof. unfold dict. by rewrite foldl_app. Qed.

Lemma dict_lookup_last `{Countable K} {V} (l : list (K * V)) (k : K) :
  dict l !! k = last (filter (λ p, p.1 = k) l).*2.
Proof.
  induction l as [|q l IH] using rev_ind; [done|].
  rewrite dict_snoc, filter_app, fmap_app, last_app, lookup_insert.
  rewrite filter_cons, filter_nil.
  by destruct (decide (q.1 = k)) as [Heq|Hne]; cbn.
Qed.

(** X1. The value [handle_sse] reads for the session header is the value of
    the last header whose name is exactly [x-session-token]; headers of any
    other name play no part, and it is empty when there is no such header
    or no header list at all. *)
Theorem session_header_is_last_occurrence (scope : Scope) :
  HttpServer.session_header_value scope
  = default []
      (last (filter (λ p, p.1 = Process.session_header_name)
               (default [] (headers scope))).*2).
Proof.
  unfold HttpServer.session_header_value, get.
  by rewrite dict_lookup_last.
Qed.

(** ** More on the SSE handshake *)

Section handshakes.
Import HttpServer.
Context {mcp_lib : McpServerLib} {sse_lib : SseLib}.
Variable config : Config.

Implicit Types (w : World) (r t : ref) (scope : Scope) (body : bytes).

Lemma get_mcp_server_pair w :
  get_mcp_server config w
  = ((get_mcp_server config w).1, (get_mcp_server config w).2).
Proof. by destruct (get_mcp_server config w). Qed.

Lemma get_sse_transport_pair w :
  get_sse_transport w = ((get_sse_transport w).1, (get_sse_transport w).2).
Proof. by destruct (get_sse_transport w). Qed.

(** The handshake written over the results of the two getters. *)
Lemma handle_sse_after_getters scope w r t :
  (get_mcp_server config w).2 = Ok r →
  (get_sse_transport (get_mcp_server config w).1).2 = Ok t →
  handle_sse config scope w
  = match decode (session_header_value scope) with
    | Raise e => ((get_sse_transport (get_mcp_server config w).1).1, Raise e)
    | Ok token =>
        let w2 := (get_sse_transport (get_mcp_server config w).1).1 in
        if truthy token then
          match servers w2 !! r with
          | None => (w2, Raise (Exception "ReferenceError" "no such server"))
          | Some srv =>
              if is_authenticated (session_manager srv)
              then ((call_connect_sse t scope w2).1,
                    Ok (SseSession r t None))
              else ((call_connect_sse t scope
                       (call_set_token r token w2).1).1,
                    Ok (SseSession r t (Some token)))
          end
        else ((call_connect_sse t scope w2).1, Ok (SseSession r t None))
    end.
Proof.
  intros Hr Ht. unfold handle_sse, bind, lift, ret.
  rewrite (get_mcp_server_pair w), Hr.
  rewrite (get_sse_transport_pair (get_mcp_server config w).1), Ht.
  fold (session_header_value scope).
  destruct (decode (session_header_value scope)) as [token|e]; [|done].
  cbn. destruct (truthy token); [|done].
  unfold session_of.
  destruct (servers _ !! r) as [srv|]; [|done].
  by destruct (is_authenticated (session_manager srv)).
Qed.

(** X2. A handshake on a server whose session is not authenticated, with a
    session header that decodes to a text that is not empty, does inject:
    it ends as an SSE session with that very text, byte for byte the value
    of the header, as the injected token, and the session of the shared
    server is then what [set_token] makes of it. *)
Theorem token_is_injected scope w sm token :
  shared_session (get_mcp_server config w).1 = Some sm →
  is_authenticated sm = false →
  decode (session_header_value scope) = Ok token →
  token ≠ "" →
  String.list_byte_of_string token = session_header_value scope
  ∧ ∃ r t,
      (handle_sse config scope w).2 = Ok (SseSession r t (Some token))
      ∧ shared_session (handle_sse config scope w).1
        = Some (set_token token sm).
Proof.
  intros Hsm Hauth Hdec Hne. split.
  { revert Hdec. unfold decode. destruct (utf8_valid _); [|done].
    intros [= <-]. apply String.list_byte_of_string_of_list_byte. }
  apply shared_session_Some in Hsm as (r & srv & Hslot & Hsrv & <-).
  assert ((get_mcp_server config w).2 = Ok r) as Hr.
  { destruct (get_mcp_server config w).2 as [r'|e] eqn:Hres.
    - apply get_mcp_server_returns in Hres. congruence.
    - apply get_mcp_server_fails in Hres as (_ & _ & Hnone & _). congruence. }
  destruct (get_sse_transport_returns (get_mcp_server config w).1)
    as (t & Ht & _).
  destruct (get_sse_transport_frame (get_mcp_server config w).1)
    as (Hfm & Hfs & _).
  exists r, t.
  rewrite (handle_sse_after_getters scope w r t Hr Ht), Hdec. cbn zeta.
  assert (truthy token = true) as -> by (by destruct token).
  rewrite Hfs, Hsrv, Hauth. cbn [fst snd]. split; [done|].
  unfold shared_session. cbn.
  by rewrite Hfm, Hslot, lookup_alter_eq, Hfs, Hsrv.
Qed.

(** X3. When the server cannot be built, a handshake fails with the
    exception of the constructor before it looks at the transport or at
    the header: no transport is created, no session is opened, nothing is
    cached, and only the count of constructor calls has moved. *)
Theorem handshake_without_server scope w e :
  _mcp_server w = None →
  BlokMCPServer_init (init_calls w) (ctor_args config) = Raise e →
  (handle_sse config scope w).2 = Raise e
  ∧ _mcp_server (handle_sse config scope w).1 = None
  ∧ servers (handle_sse config scope w).1 = servers w
  ∧ _sse_transport (handle_sse config scope w).1 = _sse_transport w
  ∧ transports (handle_sse config scope w).1 = transports w
  ∧ next_ref (handle_sse config scope w).1 = next_ref w
  ∧ init_calls (handle_sse config scope w).1 = S (init_calls w).
Proof.
  intros Hnone Hinit. unfold handle_sse, bind.
  by rewrite (get_mcp_server_raises config w e Hnone Hinit).
Qed.

(** X4. A session header that is not well-formed UTF-8 makes the handshake
    raise [UnicodeDecodeError], on a server that is authenticated as on
    one that is not: the header is decoded before the session is looked
    at.  By then the server and the transport exist; no token is injected
    and no SSE session is opened. *)
Theorem undecodable_header_fails scope w r :
  utf8_valid (session_header_value scope) = false →
  (get_mcp_server config w).2 = Ok r →
  (∃ msg,
     (handle_sse config scope w).2
     = Raise (Exception "UnicodeDecodeError" msg))
  ∧ (handle_sse config scope w).1
    = (get_sse_transport (get_mcp_server config w).1).1
  ∧ servers (handle_sse config scope w).1
    = servers (get_mcp_server config w).1
  ∧ _mcp_server (handle_sse config scope w).1 = Some r
  ∧ is_Some (_sse_transport (handle_sse config scope w).1).
Proof.
  intros Hbad Hr.
  destruct (get_sse_transport_returns (get_mcp_server config w).1)
    as (t & Ht & Hslot).
  destruct (get_sse_transport_frame (get_mcp_server config w).1)
    as (Hfm & Hfs & _).
  rewrite (handle_sse_after_getters scope w r t Hr Ht).
  unfold decode. rewrite Hbad. cbn [fst snd].
  split_and!; eauto.
  rewrite Hfm. by apply get_mcp_server_returns.
Qed.


(** X6. A message posted after a handshake is handled by the transport the
    handshake opened its session on: the transport gets the message in the
    state [connect_sse] left it in, and what it answers is what the client
    is answered. *)
Theorem message_after_handshake scope scope' body w r t inj :
  wf w →
  (handle_sse config scope w).2 = Ok (SseSession r t inj) →
  ∃ ts,
    transports (get_sse_transport (get_mcp_server config w).1).1 !! t
    = Some ts
    ∧ transports (handle_sse config scope w).1 !! t
      = Some (connect_sse scope ts)
    ∧ (handle_messages scope' body (handle_sse config scope w).1).2
      = Ok (MessagePosted t
              (handle_post_message scope' body (connect_sse scope ts)).2)
    ∧ transports
        (handle_messages scope' body (handle_sse config scope w).1).1 !! t
      = Some (handle_post_message scope' body (connect_sse scope ts)).1.
Proof.
  intros Hwf Hres.
  destruct (get_mcp_server config w).2 as [r'|e] eqn:Hr.
  2: { revert Hres. unfold handle_sse, bind.
       by rewrite (get_mcp_server_pair w), Hr. }
  destruct (get_sse_transport_returns (get_mcp_server config w).1)
    as (t' & Ht & Hslot).
  pose proof (get_sse_transport_wf _
                (get_mcp_server_wf config w Hwf)) as [_ Hwt].
  rewrite Hslot in Hwt. destruct Hwt as [ts Hts].
  assert (r' = r ∧ t' = t
          ∧ _sse_transport (handle_sse config scope w).1 = Some t
          ∧ transports (handle_sse config scope w).1
            = {[t := connect_sse scope ts]}) as (-> & -> & Hslot' & Hts').
  { revert Hres. rewrite (handle_sse_after_getters scope w r' t' Hr Ht).
    destruct (decode _) as [token|e]; [|done]. cbn zeta.
    destruct (truthy token);
      [destruct (servers _ !! r') as [srv|]; [|done];
       destruct (is_authenticated (session_manager srv))|];
      cbn; intros [= -> -> _];
      by rewrite Hslot, Hts, alter_singleton_eq. }
  exists ts. split_and!.
  - by rewrite Hts, lookup_singleton_eq.
  - by rewrite Hts', lookup_singleton_eq.
  - unfold handle_messages, bind, ret, call_handle_post_message.
    rewrite (get_sse_transport_cached _ t Hslot').
    rewrite Hts', lookup_singleton_eq.
    by destruct (handle_post_message scope' body (connect_sse scope ts)).
  - unfold handle_messages, bind, ret, call_handle_post_message.
    rewrite (get_sse_transport_cached _ t Hslot').
    rewrite Hts', lookup_singleton_eq.
    destruct (handle_post_message scope' body (connect_sse scope ts)).
    cbn. by rewrite lookup_insert_eq.
Qed.

End handshakes.

(** ** Missing keys *)

Section missing_keys.
Import HttpServer.
Context {mcp_lib : McpServerLib} {sse_lib : SseLib}.
Variable config : Config.

Implicit Types (w : World) (scope : Scope) (body : bytes).

Lemma middleware_without_method (app : Scope → bytes → Response)
    scope body w :
  type scope = "http" → method scope = None →
  SSEMiddleware_call config app scope body w
  = if bool_decide (default "" (path scope) ∈ ["/sse"; "/sse/"; "/messages/"])
    then (w, Raise (Exception "KeyError" "'method'"))
    else (w, Ok (PassedThrough scope (app scope body))).
Proof.
  intros Hty Hm.
  unfold SSEMiddleware_call, scope_method, bind, ret, lift. rewrite Hm.
  rewrite (bool_decide_eq_false_2 (type scope ≠ "http")) by tauto.
  rewrite (bool_decide_ext _ _ (sse_paths _)).
  assert (default "" (path scope) ∈ ["/sse"; "/sse/"; "/messages/"]
          ↔ (default "" (path scope) = "/sse"
             ∨ default "" (path scope) = "/sse/")
            ∨ default "" (path scope) = "/messages/") as Hin
    by (rewrite !elem_of_cons, elem_of_nil; tauto).
  rewrite (bool_decide_ext _ _ Hin).
  repeat (case_bool_decide; cbn); try done; exfalso; tauto.
Qed.

(** X7. What the middleware does with a scope that lacks a key.  A scope
    without a path is handled as one with the empty path: it is passed
    through, whatever its type and method.  An HTTP scope without a method
    raises [KeyError] when its path is [/sse], [/sse/] or [/messages/],
    the paths for which the method is looked up, and is passed through
    otherwise; in both cases the process state is left as it was. *)
Theorem scopes_with_missing_keys (app : Scope → bytes → Response)
    scope body w :
  (path scope = None →
   SSEMiddleware_call config app scope body w
   = (w, Ok (PassedThrough scope (app scope body))))
  ∧ (type scope = "http" → method scope = None →
     SSEMiddleware_call config app scope body w
     = if bool_decide
            (default "" (path scope) ∈ ["/sse"; "/sse/"; "/messages/"])
       then (w, Raise (Exception "KeyError" "'method'"))
       else (w, Ok (PassedThrough scope (app scope body)))).
Proof.
  split; [|apply middleware_without_method].
  intros Hp. destruct (decide (type scope = "http")) as [Hty|Hty].
  - destruct (method scope) as [m|] eqn:Hm.
    + rewrite middleware_dispatch by (rewrite Hm; eauto).
      rewrite Hp. unfold classify. cbn.
      rewrite (bool_decide_eq_true_2 (type scope = "http")) by done.
      by rewrite !andb_false_r.
    + rewrite middleware_without_method by done. by rewrite Hp.
  - unfold SSEMiddleware_call.
    by rewrite (bool_decide_eq_true_2 (type scope ≠ "http")).
Qed.

End missing_keys.

(** ** More on whole processes *)

Section processes.
Import HttpServer.
Context {mcp_lib : McpServerLib} {sse_lib : SseLib}.
Variable config : Config.
Variable base_url_of : Scope → string.

Implicit Types (w : World) (r t : ref) (scope : Scope) (body : bytes).
Implicit Types (c : call) (cs : list call).

(** *** Lazy construction *)

Lemma create_app_without_handshake scope body w :
  classify (type scope) (default "" (path scope)) (default "" (method scope))
  ≠ SseHandshake →
  _mcp_server (create_app config base_url_of scope body w).1 = _mcp_server w
  ∧ servers (create_app config base_url_of scope body w).1 = servers w
  ∧ init_calls (create_app config base_url_of scope body w).1 = init_calls w.
Proof.
  intros Hc. unfold create_app.
  destruct (method scope) as [m|] eqn:Hm.
  - rewrite middleware_dispatch by (rewrite Hm; eauto). rewrite Hm in *.
    destruct (classify _ _ _); try done.
    destruct (handle_messages_frame scope body w) as (? & ? & ? & _). done.
  - destruct (decide (type scope = "http")) as [Hty|Hty].
    + rewrite middleware_without_method by done. by case_bool_decide.
    + unfold SSEMiddleware_call.
      by rewrite (bool_decide_eq_true_2 (type scope ≠ "http")).
Qed.

Lemma step_without_server c w :
  Process.needs_server c = false →
  _mcp_server (step config base_url_of c w).1 = _mcp_server w
  ∧ servers (step config base_url_of c w).1 = servers w
  ∧ init_calls (step config base_url_of c w).1 = init_calls w.
Proof.
  intros Hc. rewrite step_world. destruct c as [| |scope body]; [done| |].
  - destruct (get_sse_transport_frame w) as (? & ? & ? & _). done.
  - apply create_app_without_handshake. cbn in Hc. by destruct (classify _ _ _).
Qed.

(** X8. The protocol server is built lazily.  Along a sequence of calls
    that holds no direct call of [get_mcp_server] and no SSE handshake
    (health checks, the OAuth endpoints, unknown paths, message posts,
    calls of [get_sse_transport], in any number and order) the constructor
    is never called and the cached server and the heap of servers are what
    they were; a process that has only seen such calls has no server. *)
Theorem server_is_built_lazily cs w :
  Forall (λ c, Process.needs_server c = false) cs →
  _mcp_server (run config base_url_of cs w).1 = _mcp_server w
  ∧ servers (run config base_url_of cs w).1 = servers w
  ∧ init_calls (run config base_url_of cs w).1 = init_calls w.
Proof.
  revert w. induction cs as [|c cs IH]; intros w Hcs; [done|].
  apply Forall_cons in Hcs as [Hc Hcs]. rewrite run_world.
  destruct (IH (step config base_url_of c w).1 Hcs) as (-> & -> & ->).
  by apply step_without_server.
Qed.

(** *** After the construction *)

Lemma get_mcp_server_cached_parts w r :
  _mcp_server w = Some r →
  (get_mcp_server config w).2 = Ok r
  ∧ (get_mcp_server config w).1 = w.
Proof. intros Hs. by rewrite (get_mcp_server_cached config w r Hs). Qed.

Lemma handle_sse_keeps_construction scope w r :
  _mcp_server w = Some r →
  init_calls (handle_sse config scope w).1 = init_calls w
  ∧ (init_args <$> servers (handle_sse config scope w).1 !! r)
    = (init_args <$> servers w !! r).
Proof.
  intros Hs. destruct (get_mcp_server_cached_parts w r Hs) as [Hr Hw].
  destruct (get_sse_transport_returns w) as (t & Ht & _).
  destruct (get_sse_transport_frame w) as (_ & Hfs & Hfi & _).
  rewrite <- Hw in Ht.
  rewrite (handle_sse_after_getters config scope w r t Hr Ht), Hw.
  destruct (decode _) as [token|e]; [|by cbn [fst]; rewrite Hfs, Hfi].
  cbn zeta.
  destruct (truthy token); [|by cbn; rewrite Hfs, Hfi].
  destruct (servers (get_sse_transport w).1 !! r) as [srv|] eqn:Hsrv;
    [|by cbn [fst]; rewrite Hfs, Hfi].
  destruct (is_authenticated (session_manager srv)); cbn;
    rewrite ?lookup_alter_eq, Hfs, Hfi; [done|].
  split; [done|]. by destruct (servers w !! r).
Qed.

Lemma step_keeps_construction c w r :
  _mcp_server w = Some r →
  init_calls (step config base_url_of c w).1 = init_calls w
  ∧ (init_args <$> servers (step config base_url_of c w).1 !! r)
    = (init_args <$> servers w !! r).
Proof.
  intros Hs. rewrite step_world. destruct c as [| |scope body].
  - by rewrite (get_mcp_server_cached config w r Hs).
  - destruct (get_sse_transport_frame w) as (_ & -> & -> & _). done.
  - destruct (create_app_cases config base_url_of scope body w)
      as [-> | [-> | [[? ->] | ->]]]; try done.
    + by apply handle_sse_keeps_construction.
    + destruct (handle_messages_frame scope body w) as (_ & -> & -> & _).
      done.
Qed.

(** X9. Once the server is cached the constructor is never called again:
    along any sequence of calls the count of constructor calls stays what
    it was, the same server stays cached, and the arguments it was built
    with are not touched. *)
Theorem server_is_built_once cs w r :
  _mcp_server w = Some r →
  _mcp_server (run config base_url_of cs w).1 = Some r
  ∧ init_calls (run config base_url_of cs w).1 = init_calls w
  ∧ (init_args <$> servers (run config base_url_of cs w).1 !! r)
    = (init_args <$> servers w !! r).
Proof.
  revert w. induction cs as [|c cs IH]; intros w Hs; [done|].
  rewrite run_world.
  pose proof (proj1 (step_slots config base_url_of c w) r Hs) as Hs'.
  destruct (IH _ Hs') as (-> & -> & ->).
  destruct (step_keeps_construction c w r Hs) as [-> ->]. done.
Qed.

(** X10. Once the shared session is authenticated no sequence of calls
    changes it: whatever session headers the handshakes carry, and
    whatever else is requested, the credential and [is_authenticated] are
    at the end what they were, and no connection injected a token. *)
Theorem authenticated_session_is_kept cs w sm :
  shared_session w = Some sm → is_authenticated sm = true →
  shared_session (run config base_url_of cs w).1 = Some sm
  ∧ Forall (λ x, injected x = false) (run config base_url_of cs w).2.
Proof.
  revert w. induction cs as [|c cs IH]; intros w Hsm Hauth; [by split|].
  destruct (step_when_authenticated config base_url_of c w sm Hsm Hauth)
    as [Hsm' Hinj].
  rewrite run_world, run_returned.
  destruct (IH _ Hsm' Hauth) as [-> Hall]. split; [done|].
  by apply Forall_cons.
Qed.

End processes.

(** ** One server and one transport for every connection *)

Section sharing.
Import HttpServer.
Context {mcp_lib : McpServerLib} {sse_lib : SseLib}.
Variable config : Config.
Variable base_url_of : Scope → string.

Implicit Types (w : World) (r t : ref) (scope : Scope) (body : bytes).
Implicit Types (c : call) (cs : list call).

(** The references a handshake ends with are the ones now cached. *)
Lemma handle_sse_returns scope w r t inj :
  (handle_sse config scope w).2 = Ok (SseSession r t inj) →
  _mcp_server (handle_sse config scope w).1 = Some r
  ∧ _sse_transport (handle_sse config scope w).1 = Some t.
Proof.
  destruct (get_mcp_server config w).2 as [r'|e] eqn:Hr.
  2: { unfold handle_sse, bind.
       by rewrite (get_mcp_server_pair config w), Hr. }
  destruct (get_sse_transport_returns (get_mcp_server config w).1)
    as (t' & Ht & Hslot).
  destruct (get_sse_transport_frame (get_mcp_server config w).1)
    as (Hfm & _).
  pose proof (get_mcp_server_returns config w r' Hr) as Hslot'.
  rewrite (handle_sse_after_getters config scope w r' t' Hr Ht).
  destruct (decode _) as [token|e]; [|done]. cbn zeta.
  destruct (truthy token);
    [destruct (servers _ !! r') as [srv|]; [|done];
     destruct (is_authenticated (session_manager srv))|];
    cbn; intros [= -> -> _]; by rewrite Hfm.
Qed.

Lemma handle_sse_ends_as_session scope w x :
  (handle_sse config scope w).2 = Ok x → ∃ r t inj, x = SseSession r t inj.
Proof.
  destruct (handle_sse_handshake config scope w); cbn; try done;
    intros [= <-]; eauto.
Qed.

Lemma handle_messages_ends_as_posted scope body w x :
  (handle_messages scope body w).2 = Ok x →
  ∃ t response, x = MessagePosted t response.
Proof.
  unfold handle_messages, bind, ret.
  destruct (get_sse_transport w) as [w1 [t|e]]; [|done].
  destruct (call_handle_post_message t scope body w1) as [w2 [response|e]];
    [|done].
  cbn. intros [= <-]. eauto.
Qed.

Lemma handle_messages_returns scope body w t response :
  (handle_messages scope body w).2 = Ok (MessagePosted t response) →
  _sse_transport (handle_messages scope body w).1 = Some t.
Proof.
  destruct (get_sse_transport_returns w) as (t' & Ht & Hslot).
  unfold handle_messages, bind, ret, call_handle_post_message.
  rewrite (get_sse_transport_pair w), Ht.
  destruct (transports _ !! t') as [ts|]; [|done].
  destruct (handle_post_message scope body ts). cbn. by intros [= -> _].
Qed.

Lemma step_answers c w :
  (∀ r, Process.server_of (step config base_url_of c w).2 = Some r →
        _mcp_server (step config base_url_of c w).1 = Some r)
  ∧ (∀ t, Process.transport_of (step config base_url_of c w).2 = Some t →
          _sse_transport (step config base_url_of c w).1 = Some t).
Proof.
  rewrite step_world, step_returned. destruct c as [| |scope body]; cbn.
  - split; [|done]. intros r.
    destruct (get_mcp_server config w).2 as [r'|] eqn:Hr; [|done].
    intros [= ->]. by apply get_mcp_server_returns.
  - split; [done|]. intros t.
    destruct (get_sse_transport_returns w) as (t' & Ht & Hslot).
    rewrite Ht. by intros [= <-].
  - destruct (create_app_cases config base_url_of scope body w)
      as [-> | [-> | [[? ->] | ->]]]; try done.
    + split.
      * intros r. destruct (handle_sse config scope w).2
          as [[r' t' inj| |]|] eqn:Hres; try done.
        intros [= ->]. by apply (handle_sse_returns scope w r t' inj).
      * intros t. destruct (handle_sse config scope w).2 as [x|] eqn:Hres;
          [|done].
        destruct (handle_sse_ends_as_session scope w x Hres)
          as (r' & t' & inj & ->).
        intros [= ->]. by apply (handle_sse_returns scope w r' t inj).
    + split.
      * intros r. destruct (handle_messages scope body w).2 as [x|] eqn:Hres;
          [|done].
        by destruct (handle_messages_ends_as_posted scope body w x Hres)
          as (t' & response & ->).
      * intros t. destruct (handle_messages scope body w).2 as [x|] eqn:Hres;
          [|done].
        destruct (handle_messages_ends_as_posted scope body w x Hres)
          as (t' & response & ->).
        intros [= ->].
        by apply (handle_messages_returns scope body w t response).
Qed.

Lemma run_answers_cached cs w :
  (∀ r, _mcp_server w = Some r →
        Forall (λ x, ∀ r', Process.server_of x = Some r' → r' = r)
          (run config base_url_of cs w).2)
  ∧ (∀ t, _sse_transport w = Some t →
          Forall (λ x, ∀ t', Process.transport_of x = Some t' → t' = t)
            (run config base_url_of cs w).2).
Proof.
  revert w. induction cs as [|c cs IH]; intros w; [by split|].
  rewrite run_returned.
  destruct (step_slots config base_url_of c w) as [Hs Ht].
  destruct (step_answers c w) as [Has Hat].
  destruct (IH (step config base_url_of c w).1) as [IHs IHt].
  split.
  - intros r Hr. apply Forall_cons. split; [|by apply IHs, Hs].
    intros r' Hr'. apply Has in Hr'. apply Hs in Hr. congruence.
  - intros t Hr. apply Forall_cons. split; [|by apply IHt, Ht].
    intros t' Hr'. apply Hat in Hr'. apply Ht in Hr. congruence.
Qed.

Lemma run_answers_agree cs w (i j : nat) :
  (i ≤ j)%nat →
  (∀ r r',
     (run config base_url_of cs w).2 !! i ≫= Process.server_of = Some r →
     (run config base_url_of cs w).2 !! j ≫= Process.server_of = Some r' →
     r = r')
  ∧ (∀ t t',
       (run config base_url_of cs w).2 !! i ≫= Process.transport_of = Some t →
       (run config base_url_of cs w).2 !! j ≫= Process.transport_of
       = Some t' →
       t = t').
Proof.
  revert w i j. induction cs as [|c cs IH]; intros w i j Hij; [by split|].
  rewrite run_returned.
  destruct i as [|i], j as [|j]; try lia; cbn.
  - split; congruence.
  - destruct (step_answers c w) as [Has Hat].
    destruct (run_answers_cached cs (step config base_url_of c w).1)
      as [Hs Ht].
    split.
    + intros r r' Hr Hr'. apply Has in Hr.
      destruct (_ !! j) as [x|] eqn:Hx; [|done]. cbn in Hr'.
      symmetry. eapply (proj1 (Forall_lookup _ _) (Hs r Hr)); done.
    + intros t t' Hr Hr'. apply Hat in Hr.
      destruct (_ !! j) as [x|] eqn:Hx; [|done]. cbn in Hr'.
      symmetry. eapply (proj1 (Forall_lookup _ _) (Ht t Hr)); done.
  - apply IH. lia.
Qed.

(** X11. Every call and every connection of a process is answered with the
    same server and the same transport: along any sequence of calls, any
    two answers that name a server (a direct call of the getter, an SSE
    session) name the same one, and any two answers that name a transport
    (a direct call, an SSE session, a posted message) name the same one. *)
Theorem one_server_one_transport cs w (i j : nat) :
  (∀ r r',
     (run config base_url_of cs w).2 !! i ≫= Process.server_of = Some r →
     (run config base_url_of cs w).2 !! j ≫= Process.server_of = Some r' →
     r = r')
  ∧ (∀ t t',
       (run config base_url_of cs w).2 !! i ≫= Process.transport_of = Some t →
       (run config base_url_of cs w).2 !! j ≫= Process.transport_of
       = Some t' →
       t = t').
Proof.
  destruct (decide (i ≤ j)%nat) as [Hij|Hij].
  - by apply run_answers_agree.
  - destruct (run_answers_agree cs w j i) as [Hs Ht]; [lia|].
    split; intros; symmetry; eauto.
Qed.

End sharing.

(** ** The configuration is read at construction *)

Section configurations.
Import HttpServer.
Context {mcp_lib : McpServerLib} {sse_lib : SseLib}.
Variables config config' : Config.
Variable base_url_of : Scope → string.

Implicit Types (w : World) (r : ref) (scope : Scope) (body : bytes).

Lemma handle_sse_any_config scope w r :
  _mcp_server w = Some r →
  handle_sse config scope w = handle_sse config' scope w.
Proof.
  intros Hs. unfold handle_sse, bind.
  by rewrite !(get_mcp_server_cached _ w r Hs).
Qed.

Lemma step_any_config (c : call) w r :
  _mcp_server w = Some r →
  step config base_url_of c w = step config' base_url_of c w.
Proof.
  intros Hs. destruct c as [| |scope body]; cbn.
  - by rewrite !(get_mcp_server_cached _ w r Hs).
  - done.
  - enough (create_app config base_url_of scope body w
            = create_app config' base_url_of scope body w) as -> by done.
    pose proof (handle_sse_any_config scope w r Hs) as Heq.
    unfold create_app, SSEMiddleware_call, scope_method, bind, ret, lift.
    destruct (method scope); repeat (case_bool_decide; cbn); done.
Qed.

(** X12. The configuration is read when the server is built and not
    afterwards: once a server is cached, a process goes the same way,
    answer by answer and state by state, whatever the token, email and
    password of the configuration have become. *)
Theorem config_is_read_at_construction (cs : list call) w r :
  _mcp_server w = Some r →
  run config base_url_of cs w = run config' base_url_of cs w.
Proof.
  revert w. induction cs as [|c cs IH]; intros w Hs; [done|].
  cbn. rewrite <- (step_any_config c w r Hs).
  pose proof (proj1 (step_slots config base_url_of c w) r Hs) as Hs'.
  destruct (step config base_url_of c w) as [w1 x]. cbn in Hs'.
  by rewrite (IH w1 Hs').
Qed.

End configurations.

(** ** The static routes *)





(** ** The issuer of the OAuth metadata *)

Lemma string_app_cons (c : ascii) (s t : string) :
  String c s ++ t = String c (s ++ t).
Proof. done. Qed.

Lemma string_app_nil_r (s : string) : s ++ "" = s.
Proof.
  induction s as [|c s IH]; [done|]. by rewrite string_app_cons, IH.
Qed.

Lemma string_app_assoc (s t u : string) : (s ++ t) ++ u = s ++ (t ++ u).
Proof.
  induction s as [|c s IH]; [done|]. by rewrite !string_app_cons, IH.
Qed.

Lemma rev_app_is_rev (s t : string) :
  String.rev_app s t = String.rev s ++ t.
Proof.
  unfold String.rev. revert t. induction s as [|c s IH]; intros t; [done|].
  cbn. rewrite (IH (String c "")), IH, string_app_assoc. done.
Qed.

Lemma string_rev_cons (c : ascii) (s : string) :
  String.rev (String c s) = String.rev s ++ String c "".
Proof. unfold String.rev at 1. cbn. apply rev_app_is_rev. Qed.

Lemma string_rev_app (s t : string) :
  String.rev (s ++ t) = String.rev t ++ String.rev s.
Proof.
  induction s as [|c s IH].
  - change ("" ++ t) with t. by rewrite string_app_nil_r.
  - by rewrite string_app_cons, !string_rev_cons, IH, string_app_assoc.
Qed.

Lemma string_rev_involutive (s : string) : String.rev (String.rev s) = s.
Proof.
  induction s as [|c s IH]; [done|].
  by rewrite string_rev_cons, string_rev_app, IH.
Qed.

Lemma slashes_snoc (n : nat) :
  Process.slashes n ++ "/" = Process.slashes (S n).
Proof.
  induction n as [|n IH]; [done|].
  change (Process.slashes (S n)) with (String "/"%char (Process.slashes n)).
  rewrite string_app_cons, IH. done.
Qed.

Lemma rev_slashes (n : nat) :
  String.rev (Process.slashes n) = Process.slashes n.
Proof.
  induction n as [|n IH]; [done|].
  change (Process.slashes (S n)) with (String "/"%char (Process.slashes n))
    at 1.
  by rewrite string_rev_cons, IH, slashes_snoc.
Qed.

Lemma lstrip_slash_spec (s : string) :
  (∃ n, s = Process.slashes n ++ HttpServer.lstrip_slash s)
  ∧ ∀ t, HttpServer.lstrip_slash s ≠ String "/"%char t.
Proof.
  induction s as [|c s [[n IHn] IH]]; [split; [by exists 0|done]|].
  destruct (decide (c = "/"%char)) as [->|Hc].
  - split; [|done]. exists (S n).
    change (HttpServer.lstrip_slash (String "/" s))
      with (HttpServer.lstrip_slash s).
    change (Process.slashes (S n)) with (String "/"%char (Process.slashes n)).
    by rewrite string_app_cons, <- IHn.
  - assert (HttpServer.lstrip_slash (String c s) = String c s) as ->.
    { destruct c as [[] [] [] [] [] [] [] []]; done. }
    split; [by exists 0|]. congruence.
Qed.

(** [s.rstrip("/")] takes the slashes off the end of [s], all of them and
    nothing else. *)
Lemma rstrip_slash_spec (s : string) :
  (∃ n, s = HttpServer.rstrip_slash s ++ Process.slashes n)
  ∧ ¬ Process.ends_with_slash (HttpServer.rstrip_slash s).
Proof.
  unfold HttpServer.rstrip_slash.
  destruct (lstrip_slash_spec (String.rev s)) as [[n Hn] Hno]. split.
  - exists n. rewrite <- (string_rev_involutive s) at 1.
    rewrite Hn at 1. by rewrite string_rev_app, rev_slashes.
  - intros [t Ht]. apply (f_equal String.rev) in Ht.
    rewrite string_rev_involutive, string_rev_app in Ht. by apply Hno in Ht.
Qed.

(** X14. The OAuth metadata names as issuer the base URL of the request
    without its trailing slashes, all of them and nothing else, so the
    issuer never ends with a slash; the two endpoints it advertises are
    the issuer followed by [/oauth/authorize] and [/oauth/token], and the
    rest of the document is fixed. *)
Theorem oauth_metadata_issuer (req : Starlette.Request) :
  ∃ issuer n,
    Starlette.base_url req = issuer ++ Process.slashes n
    ∧ ¬ Process.ends_with_slash issuer
    ∧ HttpServer.oauth_metadata req
      = JSONResponse
          [("issuer", JStr issuer);
           ("authorization_endpoint", JStr (issuer ++ "/oauth/authorize"));
           ("token_endpoint", JStr (issuer ++ "/oauth/token"));
           ("response_types_supported", JArr ["code"]);
           ("grant_types_supported", JArr ["authorization_code"]);
           ("code_challenge_methods_supported", JArr ["S256"])]
          200.
Proof.
  destruct (rstrip_slash_spec (Starlette.base_url req)) as [[n Hn] Hno].
  by exists (HttpServer.rstrip_slash (Starlette.base_url req)), n.
Qed.

(** ** The arguments of the constructor *)

(** X15. What the entry points pass to [BlokMCPServer] is never an empty
    string and never half a pair: each argument is either [None] or the
    configured value, which is then not empty, and the email is passed
    exactly when the password is. *)
Theorem constructor_arguments_shape (config : Config) :
  (is_Some (auto_auth_email (HttpServer.ctor_args config))
   ↔ is_Some (auto_auth_password (HttpServer.ctor_args config)))
  ∧ (∀ t, pre_auth_token (HttpServer.ctor_args config) = Some t →
          t ≠ "" ∧ access_token config = Some t)
  ∧ (∀ e, auto_auth_email (HttpServer.ctor_args config) = Some e →
          e ≠ "" ∧ email config = Some e
          ∧ ∃ p, password config = Some p ∧ p ≠ "")
  ∧ (∀ p, auto_auth_password (HttpServer.ctor_args config) = Some p →
          p ≠ "" ∧ password config = Some p
          ∧ ∃ e, email config = Some e ∧ e ≠ "").
Proof.
  change (HttpServer.ctor_args config) with (Main.ctor_args config).
  rewrite main_ctor_args. cbn.
  destruct (access_token config) as [[|c1 t]|],
    (email config) as [[|c2 e]|], (password config) as [[|c3 p]|]; cbn;
    split_and!; try (split; intros [? ?]; done);
    intros ? [= <-]; split_and!; eauto.
Qed.

(** ** How the stdio process ends *)

Section stdio_ends.
Context {mcp_lib : McpServerLib}.
Variable serve : BlokMCPServer → result unit.
Variable config : Config.


End stdio_ends.

(** ** The further properties at work *)

(** A token on a fresh server. *)
Lemma token_is_injected_witness :
  HttpServer.shared_session
    (HttpServer.get_mcp_server (mcp_lib := Sample.mcp_unguarded)
       (sse_lib := Sample.sse) Sample.no_credentials HttpServer.start).1
  = Some {| credential := None; is_authenticated := false |}
  ∧ decode (HttpServer.session_header_value (Sample.handshake_with "tok1"))
    = Ok "tok1"
  ∧ String.list_byte_of_string "tok1"
    = HttpServer.session_header_value (Sample.handshake_with "tok1")
  ∧ ∃ r t,
      (HttpServer.handle_sse (mcp_lib := Sample.mcp_unguarded)
         (sse_lib := Sample.sse) Sample.no_credentials
         (Sample.handshake_with "tok1") HttpServer.start).2
      = Ok (HttpServer.SseSession r t (Some "tok1"))
      ∧ HttpServer.shared_session
          (HttpServer.handle_sse (mcp_lib := Sample.mcp_unguarded)
             (sse_lib := Sample.sse) Sample.no_credentials
             (Sample.handshake_with "tok1") HttpServer.start).1
        = Some (Sample.overwriting_set_token "tok1"
                  {| credential := None; is_authenticated := false |}).
Proof.
  pose proof (token_is_injected (mcp_lib := Sample.mcp_unguarded)
                (sse_lib := Sample.sse) Sample.no_credentials
                (Sample.handshake_with "tok1") HttpServer.start
                {| credential := None; is_authenticated := false |} "tok1"
                eq_refl eq_refl eq_refl ltac:(discriminate))
    as [Hbytes Hinj].
  split_and!; [reflexivity|reflexivity|exact Hbytes|exact Hinj].
Defined.

(** A handshake when the API cannot be reached. *)
Lemma handshake_without_server_witness :
  HttpServer._mcp_server (sse_lib := Sample.sse) HttpServer.start = None
  ∧ BlokMCPServer_init (McpServerLib := Sample.mcp_broken) 0
      (HttpServer.ctor_args Sample.no_credentials)
    = Raise (Exception "ConnectionError" "api unreachable")
  ∧ (HttpServer.handle_sse (mcp_lib := Sample.mcp_broken)
       (sse_lib := Sample.sse) Sample.no_credentials
       (Sample.handshake_with "tok1") HttpServer.start).2
    = Raise (Exception "ConnectionError" "api unreachable")
  ∧ HttpServer._sse_transport
      (HttpServer.handle_sse (mcp_lib := Sample.mcp_broken)
         (sse_lib := Sample.sse) Sample.no_credentials
         (Sample.handshake_with "tok1") HttpServer.start).1
    = None.
Proof.
  pose proof (handshake_without_server (mcp_lib := Sample.mcp_broken)
                (sse_lib := Sample.sse) Sample.no_credentials
                (Sample.handshake_with "tok1") HttpServer.start
                (Exception "ConnectionError" "api unreachable")
                eq_refl eq_refl)
    as (Hres & _ & _ & Hslot & _).
  split_and!; [reflexivity|reflexivity|exact Hres|exact Hslot].
Defined.

(** A session header that is the single byte [0xff]. *)
Lemma undecodable_header_fails_witness :
  utf8_valid (HttpServer.session_header_value Scenario.undecodable_handshake)
  = false
  ∧ (HttpServer.get_mcp_server (mcp_lib := Sample.mcp Sample.login_ok)
       (sse_lib := Sample.sse) Sample.no_credentials HttpServer.start).2
    = Ok 0
  ∧ (∃ msg,
       (HttpServer.handle_sse (mcp_lib := Sample.mcp Sample.login_ok)
          (sse_lib := Sample.sse) Sample.no_credentials
          Scenario.undecodable_handshake HttpServer.start).2
       = Raise (Exception "UnicodeDecodeError" msg))
  ∧ HttpServer._mcp_server
      (HttpServer.handle_sse (mcp_lib := Sample.mcp Sample.login_ok)
         (sse_lib := Sample.sse) Sample.no_credentials
         Scenario.undecodable_handshake HttpServer.start).1
    = Some 0.
Proof.
  pose proof (undecodable_header_fails (mcp_lib := Sample.mcp Sample.login_ok)
                (sse_lib := Sample.sse) Sample.no_credentials
                Scenario.undecodable_handshake HttpServer.start 0
                eq_refl eq_refl)
    as (Hres & _ & _ & Hslot & _).
  split_and!; [reflexivity|reflexivity|exact Hres|exact Hslot].
Defined.


(** A handshake and then a message: the sample transport has the session
    and accepts the message. *)
Lemma message_after_handshake_witness :
  HttpServer.wf (sse_lib := Sample.sse) HttpServer.start
  ∧ (HttpServer.handle_sse (mcp_lib := Sample.mcp Sample.login_ok)
       (sse_lib := Sample.sse) Sample.no_credentials
       (Sample.handshake_with "tok1") HttpServer.start).2
    = Ok (HttpServer.SseSession 0 1 (Some "tok1"))
  ∧ ∃ ts : list Scope,
      (HttpServer.handle_messages (sse_lib := Sample.sse)
         Scenario.post_message []
         (HttpServer.handle_sse (mcp_lib := Sample.mcp Sample.login_ok)
            (sse_lib := Sample.sse) Sample.no_credentials
            (Sample.handshake_with "tok1") HttpServer.start).1).2
      = Ok (HttpServer.MessagePosted 1
              (handle_post_message (SseLib := Sample.sse)
                 Scenario.post_message []
                 (connect_sse (SseLib := Sample.sse)
                    (Sample.handshake_with "tok1") ts)).2).
Proof.
  split_and!; [exact wf_start|reflexivity|].
  destruct (message_after_handshake (mcp_lib := Sample.mcp Sample.login_ok)
              (sse_lib := Sample.sse) Sample.no_credentials
              (Sample.handshake_with "tok1") Scenario.post_message []
              HttpServer.start 0 1 (Some "tok1") wf_start eq_refl)
    as (ts & _ & _ & Hres & _).
  exists ts. exact Hres.
Defined.

(** A scope for [/sse] without a method, and a scope without a path. *)
Lemma scopes_with_missing_keys_witness :
  HttpServer.SSEMiddleware_call (mcp_lib := Sample.mcp Sample.login_ok)
    (sse_lib := Sample.sse) Sample.no_credentials (λ _ _, NotHttp)
    Scenario.get_without_path [] HttpServer.start
  = (HttpServer.start,
     Ok (HttpServer.PassedThrough Scenario.get_without_path NotHttp))
  ∧ HttpServer.SSEMiddleware_call (mcp_lib := Sample.mcp Sample.login_ok)
      (sse_lib := Sample.sse) Sample.no_credentials (λ _ _, NotHttp)
      Scenario.sse_without_method [] HttpServer.start
    = (HttpServer.start, Raise (Exception "KeyError" "'method'")).
Proof.
  split.
  - exact (proj1 (scopes_with_missing_keys
                    (mcp_lib := Sample.mcp Sample.login_ok)
                    (sse_lib := Sample.sse) Sample.no_credentials
                    (λ _ _, NotHttp) Scenario.get_without_path []
                    HttpServer.start) eq_refl).
  - exact (proj2 (scopes_with_missing_keys
                    (mcp_lib := Sample.mcp Sample.login_ok)
                    (sse_lib := Sample.sse) Sample.no_credentials
                    (λ _ _, NotHttp) Scenario.sse_without_method []
                    HttpServer.start) eq_refl eq_refl).
Defined.

(** Health checks, messages and stubs build no server. *)
Lemma server_is_built_lazily_witness :
  Forall (λ c, Process.needs_server c = false) Scenario.quiet_calls
  ∧ HttpServer._mcp_server
      (HttpServer.run (mcp_lib := Sample.mcp Sample.login_ok)
         (sse_lib := Sample.sse) Sample.no_credentials Sample.base_url_of
         Scenario.quiet_calls HttpServer.start).1
    = None
  ∧ HttpServer.init_calls
      (HttpServer.run (mcp_lib := Sample.mcp Sample.login_ok)
         (sse_lib := Sample.sse) Sample.no_credentials Sample.base_url_of
         Scenario.quiet_calls HttpServer.start).1
    = 0.
Proof.
  assert (Forall (λ c, Process.needs_server c = false) Scenario.quiet_calls)
    as Hquiet by (repeat constructor).
  pose proof (server_is_built_lazily (mcp_lib := Sample.mcp Sample.login_ok)
                (sse_lib := Sample.sse) Sample.no_credentials
                Sample.base_url_of Scenario.quiet_calls HttpServer.start
                Hquiet)
    as (Hslot & _ & Hcalls).
  split_and!; [exact Hquiet|exact Hslot|exact Hcalls].
Defined.

(** Handshakes and direct calls on a process that has its server. *)
Lemma server_is_built_once_witness :
  HttpServer._mcp_server Sample.unauthenticated = Some 0
  ∧ HttpServer._mcp_server
      (HttpServer.run (mcp_lib := Sample.mcp Sample.login_ok)
         Sample.no_credentials Sample.base_url_of Scenario.mixed_calls
         Sample.unauthenticated).1
    = Some 0
  ∧ HttpServer.init_calls
      (HttpServer.run (mcp_lib := Sample.mcp Sample.login_ok)
         Sample.no_credentials Sample.base_url_of Scenario.mixed_calls
         Sample.unauthenticated).1
    = HttpServer.init_calls Sample.unauthenticated.
Proof.
  pose proof (server_is_built_once (mcp_lib := Sample.mcp Sample.login_ok)
                Sample.no_credentials Sample.base_url_of Scenario.mixed_calls
                Sample.unauthenticated 0 eq_refl)
    as (Hslot & Hcalls & _).
  split_and!; [reflexivity|exact Hslot|exact Hcalls].
Defined.

(** Two handshakes with other tokens on an authenticated process, with a
    [set_token] that would overwrite. *)
Lemma authenticated_session_is_kept_witness :
  HttpServer.shared_session Sample.authenticated
  = Some {| credential := Some "tok"; is_authenticated := true |}
  ∧ HttpServer.shared_session
      (HttpServer.run (mcp_lib := Sample.mcp_unguarded)
         Sample.no_credentials Sample.base_url_of Sample.two_tokens
         Sample.authenticated).1
    = Some {| credential := Some "tok"; is_authenticated := true |}
  ∧ Forall (λ x, HttpServer.injected x = false)
      (HttpServer.run (mcp_lib := Sample.mcp_unguarded)
         Sample.no_credentials Sample.base_url_of Sample.two_tokens
         Sample.authenticated).2.
Proof.
  split; [reflexivity|].
  exact (authenticated_session_is_kept (mcp_lib := Sample.mcp_unguarded)
           Sample.no_credentials Sample.base_url_of Sample.two_tokens
           Sample.authenticated
           {| credential := Some "tok"; is_authenticated := true |}
           eq_refl eq_refl).
Defined.

(** The first construction fails: the server of the second call is the
    server of the handshake, and the transport of the handshake is the
    transport of the last call. *)
Lemma one_server_one_transport_witness :
  (HttpServer.run (mcp_lib := Sample.mcp Sample.login_flaky)
     (sse_lib := Sample.sse) Sample.email_and_password Sample.base_url_of
     Sample.calls_after_failure HttpServer.start).2 !! 1
  ≫= Process.server_of = Some 0
  ∧ (HttpServer.run (mcp_lib := Sample.mcp Sample.login_flaky)
       (sse_lib := Sample.sse) Sample.email_and_password Sample.base_url_of
       Sample.calls_after_failure HttpServer.start).2 !! 2
    ≫= Process.server_of = Some 0
  ∧ (HttpServer.run (mcp_lib := Sample.mcp Sample.login_flaky)
       (sse_lib := Sample.sse) Sample.email_and_password Sample.base_url_of
       Sample.calls_after_failure HttpServer.start).2 !! 2
    ≫= Process.transport_of = Some 1
  ∧ (HttpServer.run (mcp_lib := Sample.mcp Sample.login_flaky)
       (sse_lib := Sample.sse) Sample.email_and_password Sample.base_url_of
       Sample.calls_after_failure HttpServer.start).2 !! 5
    ≫= Process.transport_of = Some 1
  ∧ 0 = 0 ∧ 1 = 1.
Proof.
  split_and!; [reflexivity|reflexivity|reflexivity|reflexivity| |].
  - exact (proj1 (one_server_one_transport
                    (mcp_lib := Sample.mcp Sample.login_flaky)
                    (sse_lib := Sample.sse) Sample.email_and_password
                    Sample.base_url_of Sample.calls_after_failure
                    HttpServer.start 1 2) 0 0 eq_refl eq_refl).
  - exact (proj2 (one_server_one_transport
                    (mcp_lib := Sample.mcp Sample.login_flaky)
                    (sse_lib := Sample.sse) Sample.email_and_password
                    Sample.base_url_of Sample.calls_after_failure
                    HttpServer.start 2 5) 1 1 eq_refl eq_refl).
Defined.

(** A token that appears in the configuration after the server was built
    without one. *)
Lemma config_is_read_at_construction_witness :
  HttpServer._mcp_server Sample.unauthenticated = Some 0
  ∧ HttpServer.run (mcp_lib := Sample.mcp Sample.login_ok)
      Sample.no_credentials Sample.base_url_of Scenario.mixed_calls
      Sample.unauthenticated
    = HttpServer.run (mcp_lib := Sample.mcp Sample.login_ok)
        Sample.token_only Sample.base_url_of Scenario.mixed_calls
        Sample.unauthenticated.
Proof.
  split; [reflexivity|].
  exact (config_is_read_at_construction
           (mcp_lib := Sample.mcp Sample.login_ok)
           Sample.no_credentials Sample.token_only Sample.base_url_of
           Scenario.mixed_calls Sample.unauthenticated 0 eq_refl).
Defined.

